(** * libhockey.crashes: crash groups, crash instances and their paginated retrieval

    A shallow embedding of [libhockey/crashes.py].  Python values are modelled
    as Rocq data, exceptions as an error monad, generators as resumable state
    machines, the network as a trace of the requests that were issued. *)

From Stdlib Require Import ZArith Ascii String List Lia.
From stdpp Require Import base option list gmap strings pretty.

Set Warnings "-register-all".
Local Open Scope Z_scope.

(* ===================================================================== *)
(** * Python preliminaries *)
(* ===================================================================== *)

(** The exceptions that travel through this module.  None of them is caught
    anywhere in [crashes.py]. *)
Inductive exn : Type :=
| RequestFailed (status : Z)   (* raised by [HockeyDerivedClient.get] *)
| JSONDecodeError              (* raised by [Response.json()] *)
| DeserializeException (why : string) (* raised by [deserialize.deserialize] *)
| RecursionError               (* raised by the interpreter: too many nested frames *)
| Exception (name : string).   (* any other exception, by the name of its class *)

(** A computation that returns a value or raises. *)
Inductive exc (A : Type) : Type :=
| Ok (a : A)
| Raise (e : exn).
Arguments Ok {A} a.
Arguments Raise {A} e.

#[global] Instance exc_ret : MRet exc := fun _ a => Ok a.
#[global] Instance exc_bind : MBind exc := fun _ _ f m =>
  match m with
  | Ok a => f a
  | Raise e => Raise e
  end.

(** A bind that returned: name its value and the equation of its first part. *)
Ltac bound H a Ha :=
  match type of H with
  | ?m ≫= ?f = Ok ?b =>
      destruct m as [a|] eqn:Ha;
      [change (f a = Ok b) in H; cbv beta in H | discriminate H]
  end.

(** [str(x)] for an [Optional[str]]: a string is itself, [None] is its name. *)
Definition str_optional (x : option string) : string :=
  match x with
  | Some s => s
  | None => "None"
  end.

(** [str(n)] for an [int], as an f-string renders it. *)
Definition str_int (n : Z) : string := pretty n.

(** [sep.join(parts)]. *)
Definition join (sep : string) (parts : list string) : string :=
  String.concat sep parts.

(* ===================================================================== *)
(** * Record types *)
(* ===================================================================== *)

Module HockeyCrashGroup.
Record t : Type := mk {
  identifier : Z;
  app_id : Z;
  created_at : string;
  updated_at : string;
  status : Z;
  reason : option string;
  last_crash_at : string;
  exception_type : option string;
  fixed : bool;
  app_version_id : Z;
  bundle_version : string;
  bundle_short_version : string;
  number_of_crashes : Z;
  grouping_hash : string;
  grouping_type : Z;
  pattern : option string;
  crash_method : option string;
  crash_file : option string;
  crash_class : option string;
  crash_line : option string
}.

(** The [@deserialize.key(attribute, key)] decorators of the class, in
    source order. *)
Definition keys : list (string * string) :=
  [ ("identifier", "id");
    ("crash_method", "method");
    ("crash_file", "file");
    ("crash_class", "class");
    ("crash_line", "line") ]%string.

Definition url (self : t) : string :=
  ("https://rink.hockeyapp.net/manage/apps/" +:+ str_int (app_id self) +:+ "/app_versions/")
  +:+ (str_int (app_version_id self) +:+ "/crash_reasons/" +:+ str_int (identifier self)).

(** The list [properties] of [__hash__]. *)
Definition properties (self : t) : list (option string) :=
  [ exception_type self;
    reason self;
    crash_method self;
    crash_file self;
    crash_class self ].

(** The string that [__hash__] hashes: ["-".join(map(str, properties))]. *)
Definition signature_string (self : t) : string :=
  join "-" (map str_optional (properties self)).
End HockeyCrashGroup.

Module HockeyCrashGroupsResponse.
Record t : Type := mk {
  crash_reasons : list HockeyCrashGroup.t;
  status : string;
  current_page : Z;
  per_page : Z;
  total_entries : Z;
  total_pages : Z
}.
End HockeyCrashGroupsResponse.

Module HockeyCrashInstance.
Record t : Type := mk {
  identifier : Z;
  app_id : Z;
  crash_reason_id : Z;
  created_at : string;
  updated_at : string;
  oem : string;
  model : string;
  os_version : string;
  jail_break : bool;
  contact_string : string;
  user_string : string;
  has_log : bool;
  has_description : bool;
  app_version_id : Z;
  bundle_version : string;
  bundle_short_version : string
}.

Definition keys : list (string * string) :=
  [ ("identifier", "id") ]%string.
End HockeyCrashInstance.

Module HockeyCrashesResponse.
Record t : Type := mk {
  crash_reason : HockeyCrashGroup.t;
  crashes : list HockeyCrashInstance.t;
  status : string;
  current_page : Z;
  per_page : Z;
  total_entries : Z;
  total_pages : Z
}.
End HockeyCrashesResponse.

(** The Python objects that can be handed to [HockeyCrashGroup.__eq__]. *)
Inductive object : Type :=
| PyNone
| PyBool (b : bool)
| PyInt (n : Z)
| PyStr (s : string)
| PyList (items : list object)
| PyCrashGroup (g : HockeyCrashGroup.t)
| PyCrashInstance (c : HockeyCrashInstance.t)
| PyCrashGroupsResponse (r : HockeyCrashGroupsResponse.t)
| PyCrashesResponse (r : HockeyCrashesResponse.t).

(** [isinstance(other, HockeyCrashGroup)]. *)
Definition isinstance_HockeyCrashGroup (other : object) : bool :=
  match other with
  | PyCrashGroup _ => true
  | _ => false
  end.

(* ===================================================================== *)
(** * Equality and hashing of crash groups *)
(* ===================================================================== *)

Section Hashing.
(** Python's builtin [hash] on strings: some function of the string. *)
Variable hash : string -> Z.

Definition __hash__ (self : HockeyCrashGroup.t) : Z :=
  hash (HockeyCrashGroup.signature_string self).

Definition __eq__ (self : HockeyCrashGroup.t) (other : object) : bool :=
  if negb (isinstance_HockeyCrashGroup other) then false
  else
    match other with
    | PyCrashGroup other => __hash__ self =? __hash__ other
    | _ => false (* not reached: [other] is a crash group here *)
    end.
End Hashing.

(* ===================================================================== *)
(** * JSON bodies and their decoding *)
(* ===================================================================== *)

(** What [Response.json()] returns: the parsed body. *)
Inductive json_value : Type :=
| JNull
| JBool (b : bool)
| JNumber (n : Z)
| JString (s : string)
| JArray (items : list json_value)
| JObject (members : gmap string json_value).

(** Modelled from the spec: the key lookup of the decoder [deserialize]
    (a package that is not under src/).  An attribute is read from the key
    its [@deserialize.key] decorator names, and from the key of its own name
    when it has no decorator. *)
Fixpoint key_for (keys : list (string * string)) (attribute : string) : string :=
  match keys with
  | [] => attribute
  | (a, k) :: rest => if String.eqb a attribute then k else key_for rest attribute
  end.

(** Modelled from the spec: the decoder [deserialize] on an attribute
    annotated [int]; a missing key or a value of another shape is a
    [DeserializeException]. *)
Definition field_int (keys : list (string * string)) (data : gmap string json_value)
    (attribute : string) : exc Z :=
  match data !! key_for keys attribute with
  | Some (JNumber n) => Ok n
  | _ => Raise (DeserializeException attribute)
  end.

(** Modelled from the spec: the decoder [deserialize] on an attribute
    annotated [str]. *)
Definition field_str (keys : list (string * string)) (data : gmap string json_value)
    (attribute : string) : exc string :=
  match data !! key_for keys attribute with
  | Some (JString s) => Ok s
  | _ => Raise (DeserializeException attribute)
  end.

(** Modelled from the spec: the decoder [deserialize] on an attribute
    annotated [bool]. *)
Definition field_bool (keys : list (string * string)) (data : gmap string json_value)
    (attribute : string) : exc bool :=
  match data !! key_for keys attribute with
  | Some (JBool b) => Ok b
  | _ => Raise (DeserializeException attribute)
  end.

(** Modelled from the spec: the decoder [deserialize] on an attribute
    annotated [Optional[str]]; [null] and a missing key both give [None]. *)
Definition field_optional_str (keys : list (string * string)) (data : gmap string json_value)
    (attribute : string) : exc (option string) :=
  match data !! key_for keys attribute with
  | Some (JString s) => Ok (Some s)
  | Some JNull | None => Ok None
  | Some _ => Raise (DeserializeException attribute)
  end.

(** Modelled from the spec: the decoder [deserialize] on a [List[T]]. *)
Fixpoint deserialize_list {A : Type} (element : json_value -> exc A)
    (items : list json_value) : exc (list A) :=
  match items with
  | [] => Ok []
  | j :: rest =>
      a ← element j;
      others ← deserialize_list element rest;
      mret (a :: others)
  end.

(** Modelled from the spec: [deserialize.deserialize(HockeyCrashGroup, body)],
    the decoder (not under src/) run on the class's annotations in source
    order with the class's key table. *)
Definition deserialize_HockeyCrashGroup (body : json_value) : exc HockeyCrashGroup.t :=
  match body with
  | JObject data =>
      let keys := HockeyCrashGroup.keys in
      identifier ← field_int keys data "identifier";
      app_id ← field_int keys data "app_id";
      created_at ← field_str keys data "created_at";
      updated_at ← field_str keys data "updated_at";
      status ← field_int keys data "status";
      reason ← field_optional_str keys data "reason";
      last_crash_at ← field_str keys data "last_crash_at";
      exception_type ← field_optional_str keys data "exception_type";
      fixed ← field_bool keys data "fixed";
      app_version_id ← field_int keys data "app_version_id";
      bundle_version ← field_str keys data "bundle_version";
      bundle_short_version ← field_str keys data "bundle_short_version";
      number_of_crashes ← field_int keys data "number_of_crashes";
      grouping_hash ← field_str keys data "grouping_hash";
      grouping_type ← field_int keys data "grouping_type";
      pattern ← field_optional_str keys data "pattern";
      crash_method ← field_optional_str keys data "crash_method";
      crash_file ← field_optional_str keys data "crash_file";
      crash_class ← field_optional_str keys data "crash_class";
      crash_line ← field_optional_str keys data "crash_line";
      mret (HockeyCrashGroup.mk identifier app_id created_at updated_at status reason
              last_crash_at exception_type fixed app_version_id bundle_version
              bundle_short_version number_of_crashes grouping_hash grouping_type
              pattern crash_method crash_file crash_class crash_line)
  | _ => Raise (DeserializeException "HockeyCrashGroup")
  end.

(** Modelled from the spec: [deserialize.deserialize(HockeyCrashInstance, body)]. *)
Definition deserialize_HockeyCrashInstance (body : json_value) : exc HockeyCrashInstance.t :=
  match body with
  | JObject data =>
      let keys := HockeyCrashInstance.keys in
      identifier ← field_int keys data "identifier";
      app_id ← field_int keys data "app_id";
      crash_reason_id ← field_int keys data "crash_reason_id";
      created_at ← field_str keys data "created_at";
      updated_at ← field_str keys data "updated_at";
      oem ← field_str keys data "oem";
      model ← field_str keys data "model";
      os_version ← field_str keys data "os_version";
      jail_break ← field_bool keys data "jail_break";
      contact_string ← field_str keys data "contact_string";
      user_string ← field_str keys data "user_string";
      has_log ← field_bool keys data "has_log";
      has_description ← field_bool keys data "has_description";
      app_version_id ← field_int keys data "app_version_id";
      bundle_version ← field_str keys data "bundle_version";
      bundle_short_version ← field_str keys data "bundle_short_version";
      mret (HockeyCrashInstance.mk identifier app_id crash_reason_id created_at updated_at
              oem model os_version jail_break contact_string user_string has_log
              has_description app_version_id bundle_version bundle_short_version)
  | _ => Raise (DeserializeException "HockeyCrashInstance")
  end.

(** Modelled from the spec: the decoder [deserialize] on an attribute that
    holds a list of records. *)
Definition field_list {A : Type} (element : json_value -> exc A)
    (data : gmap string json_value) (attribute : string) : exc (list A) :=
  match data !! attribute with
  | Some (JArray items) => deserialize_list element items
  | _ => Raise (DeserializeException attribute)
  end.

(** Modelled from the spec: the decoder [deserialize] on an attribute that
    holds one record. *)
Definition field_record {A : Type} (element : json_value -> exc A)
    (data : gmap string json_value) (attribute : string) : exc A :=
  match data !! attribute with
  | Some j => element j
  | None => Raise (DeserializeException attribute)
  end.

(** Modelled from the spec:
    [deserialize.deserialize(HockeyCrashGroupsResponse, body)]. *)
Definition deserialize_HockeyCrashGroupsResponse (body : json_value)
    : exc HockeyCrashGroupsResponse.t :=
  match body with
  | JObject data =>
      crash_reasons ← field_list deserialize_HockeyCrashGroup data "crash_reasons";
      status ← field_str [] data "status";
      current_page ← field_int [] data "current_page";
      per_page ← field_int [] data "per_page";
      total_entries ← field_int [] data "total_entries";
      total_pages ← field_int [] data "total_pages";
      mret (HockeyCrashGroupsResponse.mk crash_reasons status current_page per_page
              total_entries total_pages)
  | _ => Raise (DeserializeException "HockeyCrashGroupsResponse")
  end.

(** Modelled from the spec:
    [deserialize.deserialize(HockeyCrashesResponse, body)]. *)
Definition deserialize_HockeyCrashesResponse (body : json_value)
    : exc HockeyCrashesResponse.t :=
  match body with
  | JObject data =>
      crash_reason ← field_record deserialize_HockeyCrashGroup data "crash_reason";
      crashes ← field_list deserialize_HockeyCrashInstance data "crashes";
      status ← field_str [] data "status";
      current_page ← field_int [] data "current_page";
      per_page ← field_int [] data "per_page";
      total_entries ← field_int [] data "total_entries";
      total_pages ← field_int [] data "total_pages";
      mret (HockeyCrashesResponse.mk crash_reason crashes status current_page per_page
              total_entries total_pages)
  | _ => Raise (DeserializeException "HockeyCrashesResponse")
  end.

(* ===================================================================== *)
(** * The network *)
(* ===================================================================== *)

(** One call [self.get(request_url, retry_count=...)]. *)
Record request : Type := mk_request {
  request_url : string;
  retry_count : Z
}.

(** A [requests.Response], as far as this module uses it: what its method
    [json()] returns or raises. *)
Record Response : Type := mk_response {
  json : exc json_value
}.

(* ===================================================================== *)
(** * Generators *)
(* ===================================================================== *)

(** What one call of [next()] on a generator gives its caller. *)
Inductive signal (Item : Type) : Type :=
| Yielded (item : Item)
| StopIteration
| Raised (e : exn).
Arguments Yielded {Item} item.
Arguments StopIteration {Item}.
Arguments Raised {Item} e.

(** What tells [generate_groups_for_version] from [generate_in_group]: the
    URL of a page, and how the body of a page is decoded into its items and
    its [total_pages]. *)
Record paging (Item : Type) : Type := mk_paging {
  url_for : Z -> string;
  envelope_of : json_value -> exc (list Item * Z)
}.
Arguments mk_paging {Item} url_for envelope_of.
Arguments url_for {Item} p page.
Arguments envelope_of {Item} p body.

(** Where a suspended generator stands in the body of its function.  The
    delegation [yield from self.generate_...(page=page + 1)] is the last
    statement of the body, so the delegating frame has nothing left to do
    and the generator is its innermost frame. *)
Inductive control (Item : Type) : Type :=
| AtEntry (page : Z)
| InLoop (remaining : list Item) (total_pages : Z) (page : Z)
| Finished.
Arguments AtEntry {Item} page.
Arguments InLoop {Item} remaining total_pages page.
Arguments Finished {Item}.

(** A generator object: the arguments it was created with, and where it
    stands. *)
Record generator (Item : Type) : Type := mk_generator {
  code : paging Item;
  at_ : control Item
}.
Arguments mk_generator {Item} code at_.
Arguments code {Item} g.
Arguments at_ {Item} g.

Section Client.
(** [libhockey.constants.API_BASE_URL]. *)
Variable API_BASE_URL : string.
(** [HockeyDerivedClient.get]: the response to a request, or the exception
    it raises once its retries are used up. *)
Variable get : string -> Z -> exc Response.

Section Engine.
Context {Item : Type}.

(** The first statements of both generator functions, up to the decoded
    envelope: request, [response.json()], [deserialize.deserialize]. *)
Definition fetch (p : paging Item) (page : Z) : exc (list Item * Z) :=
  response ← get (url_for p page) 3;
  body ← json response;
  envelope_of p body.

(** The generator runs to its next observable point: it yields, returns
    or raises ([Some]), or it has moved on without giving anything to its
    caller yet ([None]).  The trace gains the request the moment [get]
    is called. *)
Definition resume (g : generator Item) (trace : list request)
    : option (signal Item) * generator Item * list request :=
  match at_ g with
  | AtEntry page =>
      let trace' := trace ++ [mk_request (url_for (code g) page) 3] in
      match fetch (code g) page with
      | Raise e => (Some (Raised e), mk_generator (code g) Finished, trace')
      | Ok (items, total_pages) =>
          (None, mk_generator (code g) (InLoop items total_pages page), trace')
      end
  | InLoop (item :: remaining) total_pages page =>
      (Some (Yielded item), mk_generator (code g) (InLoop remaining total_pages page), trace)
  | InLoop [] total_pages page =>
      if total_pages >? page
      then (None, mk_generator (code g) (AtEntry (page + 1)), trace)
      else (Some StopIteration, mk_generator (code g) Finished, trace)
  | Finished => (Some StopIteration, g, trace)
  end.

(** [next(g)]: resume until the generator gives something.  [fuel] bounds
    the number of resumes; [None] says that it was not enough. *)
Fixpoint next (fuel : nat) (g : generator Item) (trace : list request)
    : option (signal Item * generator Item * list request) :=
  match fuel with
  | O => None
  | S fuel' =>
      match resume g trace with
      | (Some s, g', trace') => Some (s, g', trace')
      | (None, g', trace') => next fuel' g' trace'
      end
  end.

(** [list(g)]. *)
Fixpoint py_list (fuel : nat) (g : generator Item) (acc : list Item)
    (trace : list request) : option (exc (list Item) * list request) :=
  match fuel with
  | O => None
  | S fuel' =>
      match next fuel' g trace with
      | None => None
      | Some (Yielded item, g', trace') => py_list fuel' g' (acc ++ [item]) trace'
      | Some (StopIteration, _, trace') => Some (Ok acc, trace')
      | Some (Raised e, _, trace') => Some (Raise e, trace')
      end
  end.

(** The loop of [groups_for_version]:
    [for group in g: groups.append(group); if ...: break], then
    [return groups]. *)
Fixpoint collect (fuel : nat) (max_count : option Z) (g : generator Item)
    (groups : list Item) (trace : list request)
    : option (exc (list Item) * list request) :=
  match fuel with
  | O => None
  | S fuel' =>
      match next fuel' g trace with
      | None => None
      | Some (Yielded group, g', trace') =>
          let groups := groups ++ [group] in
          if match max_count with
             | Some k => Z.of_nat (length groups) >=? k
             | None => false
             end
          then Some (Ok groups, trace')
          else collect fuel' max_count g' groups trace'
      | Some (StopIteration, _, trace') => Some (Ok groups, trace')
      | Some (Raised e, _, trace') => Some (Raise e, trace')
      end
  end.
End Engine.

(** ** Crash groups of a version *)

Definition groups_url (app_id : string) (app_version_id : Z) (page : Z) : string :=
  (API_BASE_URL +:+ "/" +:+ app_id +:+ "/app_versions/" +:+ str_int app_version_id +:+ "/")
  +:+ ("crash_reasons?per_page=100&order=desc&page=" +:+ str_int page).

Definition groups_envelope (body : json_value) : exc (list HockeyCrashGroup.t * Z) :=
  crash_reasons_response ← deserialize_HockeyCrashGroupsResponse body;
  mret (HockeyCrashGroupsResponse.crash_reasons crash_reasons_response,
        HockeyCrashGroupsResponse.total_pages crash_reasons_response).

Definition generate_groups_for_version (app_id : string) (app_version_id : Z)
    (page : Z) : generator HockeyCrashGroup.t :=
  mk_generator (mk_paging (groups_url app_id app_version_id) groups_envelope)
               (AtEntry page).

Definition groups_for_version (fuel : nat) (app_id : string) (app_version_id : Z)
    (max_count : option Z) (trace : list request)
    : option (exc (list HockeyCrashGroup.t) * list request) :=
  collect fuel max_count (generate_groups_for_version app_id app_version_id 1) [] trace.

(** ** Crash instances of a group *)

Definition in_group_url (app_id : string) (app_version_id : Z) (crash_group_id : Z)
    (page : Z) : string :=
  (API_BASE_URL +:+ "/" +:+ app_id +:+ "/app_versions/" +:+ str_int app_version_id
     +:+ "/crash_reasons/")
  +:+ (str_int crash_group_id +:+ "?per_page=100&order=desc&page=" +:+ str_int page).

Definition in_group_envelope (body : json_value) : exc (list HockeyCrashInstance.t * Z) :=
  crashes_response ← deserialize_HockeyCrashesResponse body;
  mret (HockeyCrashesResponse.crashes crashes_response,
        HockeyCrashesResponse.total_pages crashes_response).

Definition generate_in_group (app_id : string) (app_version_id : Z)
    (crash_group_id : Z) (page : Z) : generator HockeyCrashInstance.t :=
  mk_generator (mk_paging (in_group_url app_id app_version_id crash_group_id)
                          in_group_envelope)
               (AtEntry page).

Definition in_group (fuel : nat) (app_id : string) (app_version_id : Z)
    (crash_group_id : Z) (trace : list request)
    : option (exc (list HockeyCrashInstance.t) * list request) :=
  py_list fuel (generate_in_group app_id app_version_id crash_group_id 1) [] trace.
End Client.

(* ===================================================================== *)
(** * What a caller observes of a generator *)
(* ===================================================================== *)

Section Observations.
Variable get : string -> Z -> exc Response.
Context {Item : Type}.

(** [gives g trace s g' trace']: one call of [next()] on [g] gives [s],
    leaves the generator as [g'] and the trace as [trace']. *)
Inductive gives : generator Item -> list request -> signal Item ->
                  generator Item -> list request -> Prop :=
| gives_now g trace s g' trace' :
    resume get g trace = (Some s, g', trace') ->
    gives g trace s g' trace'
| gives_later g trace g1 trace1 s g' trace' :
    resume get g trace = (None, g1, trace1) ->
    gives g1 trace1 s g' trace' ->
    gives g trace s g' trace'.

(** [pulls g trace items g' trace']: successive calls of [next()] yield
    [items], in this order. *)
Inductive pulls : generator Item -> list request -> list Item ->
                  generator Item -> list request -> Prop :=
| pulls_nil g trace : pulls g trace [] g trace
| pulls_cons g trace item g1 trace1 items g' trace' :
    gives g trace (Yielded item) g1 trace1 ->
    pulls g1 trace1 items g' trace' ->
    pulls g trace (item :: items) g' trace'.

(** The whole sequence of a generator: it yields [items], then stops. *)
Definition exhausts (g : generator Item) (trace : list request)
    (items : list Item) (trace' : list request) : Prop :=
  exists g1 trace1 g',
    pulls g trace items g1 trace1 /\ gives g1 trace1 StopIteration g' trace'.

(** The whole sequence of a generator: it yields [items], then raises
    and is finished. *)
Definition aborts (g : generator Item) (trace : list request)
    (items : list Item) (e : exn) (trace' : list request) : Prop :=
  exists g1 trace1 g',
    pulls g trace items g1 trace1 /\
    gives g1 trace1 (Raised e) g' trace' /\
    at_ g' = Finished.

(** What [resume] gave its caller, as a list of at most one signal. *)
Definition given (o : option (signal Item)) : list (signal Item) :=
  match o with
  | Some s => [s]
  | None => []
  end.

(** The generator as it runs, one [resume] after the other, with the
    signals it gives on the way. *)
Inductive runs : generator Item -> list request -> list (signal Item) ->
                 generator Item -> list request -> Prop :=
| runs_here g trace : runs g trace [] g trace
| runs_on g trace o g1 trace1 signals g' trace' :
    resume get g trace = (o, g1, trace1) ->
    runs g1 trace1 signals g' trace' ->
    runs g trace (given o ++ signals) g' trace'.

(** The requests for [count] pages from [page] on. *)
Definition requests_for (p : paging Item) (page : Z) (count : nat) : list request :=
  map (fun n => mk_request (url_for p n) 3) (seqZ page (Z.of_nat count)).

(** Where a generator stands, against the number of pages requested since
    page [start]. *)
Definition stands (c : control Item) (start : Z) (n : nat) : Prop :=
  match c with
  | AtEntry page => page = start + Z.of_nat n
  | InLoop _ _ page => page + 1 = start + Z.of_nat n
  | Finished => True
  end.

(** The pages the engine visits from [page] on: the items of each page
    that was fetched and decoded, and the exception that ended the visit,
    if one did. *)
Inductive visits (p : paging Item) : Z -> list (list Item) -> option exn -> Prop :=
| visits_last page items total_pages :
    fetch get p page = Ok (items, total_pages) ->
    total_pages <= page ->
    visits p page [items] None
| visits_failed page e :
    fetch get p page = Raise e ->
    visits p page [] (Some e)
| visits_more page items total_pages pages ending :
    fetch get p page = Ok (items, total_pages) ->
    total_pages > page ->
    visits p (page + 1) pages ending ->
    visits p page (items :: pages) ending.
End Observations.

(* ===================================================================== *)
(** * The URL shapes as the interface documents them *)
(* ===================================================================== *)

(** [{API_BASE}/{app_id}/app_versions/{app_version_id}/crash_reasons?per_page=100&order=desc&page={page}] *)
Definition groups_url_shape (API_BASE app_id : string) (app_version_id page : Z) : string :=
  API_BASE +:+ "/" +:+ app_id +:+ "/app_versions/" +:+ str_int app_version_id
  +:+ "/crash_reasons?per_page=100&order=desc&page=" +:+ str_int page.

(** [{API_BASE}/{app_id}/app_versions/{app_version_id}/crash_reasons/{crash_group_id}?per_page=100&order=desc&page={page}] *)
Definition in_group_url_shape (API_BASE app_id : string)
    (app_version_id crash_group_id page : Z) : string :=
  API_BASE +:+ "/" +:+ app_id +:+ "/app_versions/" +:+ str_int app_version_id
  +:+ "/crash_reasons/" +:+ str_int crash_group_id
  +:+ "?per_page=100&order=desc&page=" +:+ str_int page.

(* ===================================================================== *)
(** * Fixtures *)
(* ===================================================================== *)

(** A crash group with the given identifier and signature, the other
    attributes fixed. *)
Definition a_group (identifier : Z) (exception_type reason crash_method crash_file
    crash_class : option string) : HockeyCrashGroup.t :=
  HockeyCrashGroup.mk identifier 11 "2019-01-01T00:00:00Z" "2019-01-02T00:00:00Z" 0
    reason "2019-01-02T00:00:00Z" exception_type false 7 "1.0.0" "1.0" 3
    "abcdef" 1 None crash_method crash_file crash_class (Some "42").

(** A crash group that keeps everything of [g] but its signature. *)
Definition with_signature (g : HockeyCrashGroup.t) (exception_type reason crash_method
    crash_file crash_class : option string) : HockeyCrashGroup.t :=
  HockeyCrashGroup.mk (HockeyCrashGroup.identifier g) (HockeyCrashGroup.app_id g)
    (HockeyCrashGroup.created_at g) (HockeyCrashGroup.updated_at g)
    (HockeyCrashGroup.status g) reason (HockeyCrashGroup.last_crash_at g)
    exception_type (HockeyCrashGroup.fixed g) (HockeyCrashGroup.app_version_id g)
    (HockeyCrashGroup.bundle_version g) (HockeyCrashGroup.bundle_short_version g)
    (HockeyCrashGroup.number_of_crashes g) (HockeyCrashGroup.grouping_hash g)
    (HockeyCrashGroup.grouping_type g) (HockeyCrashGroup.pattern g)
    crash_method crash_file crash_class (HockeyCrashGroup.crash_line g).

Definition an_instance (identifier : Z) : HockeyCrashInstance.t :=
  HockeyCrashInstance.mk identifier 11 5 "2019-01-01T00:00:00Z" "2019-01-01T00:00:00Z"
    "Apple" "iPhone" "12.1" false "" "" true false 7 "1.0.0" "1.0".

Definition json_optional (x : option string) : json_value :=
  match x with
  | Some s => JString s
  | None => JNull
  end.

(** The body the service sends for a crash group. *)
Definition json_of_group (g : HockeyCrashGroup.t) : json_value :=
  JObject (list_to_map
    [ ("id", JNumber (HockeyCrashGroup.identifier g));
      ("app_id", JNumber (HockeyCrashGroup.app_id g));
      ("created_at", JString (HockeyCrashGroup.created_at g));
      ("updated_at", JString (HockeyCrashGroup.updated_at g));
      ("status", JNumber (HockeyCrashGroup.status g));
      ("reason", json_optional (HockeyCrashGroup.reason g));
      ("last_crash_at", JString (HockeyCrashGroup.last_crash_at g));
      ("exception_type", json_optional (HockeyCrashGroup.exception_type g));
      ("fixed", JBool (HockeyCrashGroup.fixed g));
      ("app_version_id", JNumber (HockeyCrashGroup.app_version_id g));
      ("bundle_version", JString (HockeyCrashGroup.bundle_version g));
      ("bundle_short_version", JString (HockeyCrashGroup.bundle_short_version g));
      ("number_of_crashes", JNumber (HockeyCrashGroup.number_of_crashes g));
      ("grouping_hash", JString (HockeyCrashGroup.grouping_hash g));
      ("grouping_type", JNumber (HockeyCrashGroup.grouping_type g));
      ("pattern", json_optional (HockeyCrashGroup.pattern g));
      ("method", json_optional (HockeyCrashGroup.crash_method g));
      ("file", json_optional (HockeyCrashGroup.crash_file g));
      ("class", json_optional (HockeyCrashGroup.crash_class g));
      ("line", json_optional (HockeyCrashGroup.crash_line g)) ]%string).

(** The body the service sends for a crash instance. *)
Definition json_of_instance (c : HockeyCrashInstance.t) : json_value :=
  JObject (list_to_map
    [ ("id", JNumber (HockeyCrashInstance.identifier c));
      ("app_id", JNumber (HockeyCrashInstance.app_id c));
      ("crash_reason_id", JNumber (HockeyCrashInstance.crash_reason_id c));
      ("created_at", JString (HockeyCrashInstance.created_at c));
      ("updated_at", JString (HockeyCrashInstance.updated_at c));
      ("oem", JString (HockeyCrashInstance.oem c));
      ("model", JString (HockeyCrashInstance.model c));
      ("os_version", JString (HockeyCrashInstance.os_version c));
      ("jail_break", JBool (HockeyCrashInstance.jail_break c));
      ("contact_string", JString (HockeyCrashInstance.contact_string c));
      ("user_string", JString (HockeyCrashInstance.user_string c));
      ("has_log", JBool (HockeyCrashInstance.has_log c));
      ("has_description", JBool (HockeyCrashInstance.has_description c));
      ("app_version_id", JNumber (HockeyCrashInstance.app_version_id c));
      ("bundle_version", JString (HockeyCrashInstance.bundle_version c));
      ("bundle_short_version", JString (HockeyCrashInstance.bundle_short_version c)) ]%string).

(** A page of crash groups, as the service sends it. *)
Definition groups_page (groups : list HockeyCrashGroup.t) (current_page total_pages : Z)
    : exc Response :=
  Ok (mk_response (Ok (JObject (list_to_map
    [ ("crash_reasons", JArray (map json_of_group groups));
      ("status", JString "success");
      ("current_page", JNumber current_page);
      ("per_page", JNumber 100);
      ("total_entries", JNumber 3);
      ("total_pages", JNumber total_pages) ]%string)))).

(** A page of crash instances, as the service sends it. *)
Definition crashes_page (crashes : list HockeyCrashInstance.t) (current_page total_pages : Z)
    : exc Response :=
  Ok (mk_response (Ok (JObject (list_to_map
    [ ("crash_reason", json_of_group (a_group 5 (Some "SIGSEGV") None None None None));
      ("crashes", JArray (map json_of_instance crashes));
      ("status", JString "success");
      ("current_page", JNumber current_page);
      ("per_page", JNumber 100);
      ("total_entries", JNumber 3);
      ("total_pages", JNumber total_pages) ]%string)))).

(** A service that answers the listed URLs and no other. *)
Fixpoint serve (pages : list (string * exc Response)) (url : string) (retry_count : Z)
    : exc Response :=
  match pages with
  | [] => Raise (RequestFailed 404)
  | (u, r) :: rest => if String.eqb u url then r else serve rest url retry_count
  end.

Definition API : string := "https://rink.hockeyapp.net/api/2/apps".

Definition first_groups : list HockeyCrashGroup.t :=
  [ a_group 1 (Some "SIGSEGV") None None None None;
    a_group 2 (Some "SIGABRT") (Some "abort") None None None ].

Definition last_groups : list HockeyCrashGroup.t :=
  [ a_group 3 None None (Some "main") (Some "main.m") None ].

Definition first_crashes : list HockeyCrashInstance.t :=
  [ an_instance 100; an_instance 101 ].

Definition last_crashes : list HockeyCrashInstance.t :=
  [ an_instance 102 ].

(** Two pages of crash groups and two pages of crash instances, every page
    reporting [total_pages = 2]. *)
Definition two_pages : string -> Z -> exc Response :=
  serve
    [ (groups_url API "app" 7 1, groups_page first_groups 1 2);
      (groups_url API "app" 7 2, groups_page last_groups 2 2);
      (in_group_url API "app" 7 5 1, crashes_page first_crashes 1 2);
      (in_group_url API "app" 7 5 2, crashes_page last_crashes 2 2) ].

(** A first page that continues and a second page that cannot be fetched. *)
Definition second_page_fails : string -> Z -> exc Response :=
  serve
    [ (groups_url API "app" 7 1, groups_page first_groups 1 2);
      (in_group_url API "app" 7 5 1, crashes_page first_crashes 1 2) ].



(** A stand-in for [hash] on fixtures. *)
Definition length_hash (s : string) : Z := Z.of_nat (String.length s).

(* ===================================================================== *)
(** * Further notions *)
(* ===================================================================== *)

(** Whether the character [c] occurs in [s]. *)
Fixpoint has_char (c : ascii) (s : string) : bool :=
  match s with
  | EmptyString => false
  | String a rest => Ascii.eqb a c || has_char c rest
  end.

(** A signature field whose rendering by [str] can be read back: it holds
    no "-" and is not the string "None". *)
Definition plain (x : option string) : bool :=
  match x with
  | Some s => negb (has_char "-"%char s) && negb (String.eqb s "None")
  | None => true
  end.

(** A signature whose joined rendering can be read back: its first four
    fields are plain, and the last is not the string "None". *)
Definition clean_signature (g : HockeyCrashGroup.t) : bool :=
  plain (HockeyCrashGroup.exception_type g) &&
  plain (HockeyCrashGroup.reason g) &&
  plain (HockeyCrashGroup.crash_method g) &&
  plain (HockeyCrashGroup.crash_file g) &&
  match HockeyCrashGroup.crash_class g with
  | Some s => negb (String.eqb s "None")
  | None => true
  end.

Section LazyCaller.
Variable get : string -> Z -> exc Response.
Context {Item : Type}.

(** The lazy caller who asks a generator for [n] items, one [next()] after
    the other, and for nothing more. *)
Fixpoint pull (fuel : nat) (n : nat) (g : generator Item) (trace : list request)
    : option (list Item * generator Item * list request) :=
  match n with
  | O => Some ([], g, trace)
  | S n' =>
      match next get fuel g trace with
      | Some (Yielded item, g1, trace1) =>
          match pull fuel n' g1 trace1 with
          | Some (items, g', trace') => Some (item :: items, g', trace')
          | None => None
          end
      | _ => None
      end
  end.
End LazyCaller.

(* ===================================================================== *)
(** * Objects of any class *)
(* ===================================================================== *)



Section DynamicEquality.
Variable hash : string -> Z.

End DynamicEquality.

(* ===================================================================== *)
(** * The frames of the interpreter *)
(* ===================================================================== *)

Section Frames.
Variable get : string -> Z -> exc Response.
(** How many generator frames the interpreter lets nest under the caller:
    [sys.getrecursionlimit()] less the frames that are in use already. *)
Variable frame_limit : nat.
Context {Item : Type}.

(** Whether the generator is about to run
    [yield from self.generate_...(page=page + 1)], which puts the frame of
    one more generator under the frames of the pages before. *)
Definition delegates (g : generator Item) : bool :=
  match at_ g with
  | InLoop [] total_pages page => total_pages >? page
  | _ => false
  end.

(** [resume] in an interpreter with a limit on nested frames: [depth] is
    the number of generator frames that are nested already, one for each
    page started so far.  Where the limit leaves no room for the frame of
    the next page, the delegation raises [RecursionError], before anything
    is requested, and the generator is finished. *)
Definition resume_framed (depth : nat) (g : generator Item) (trace : list request)
    : option (signal Item) * (nat * generator Item) * list request :=
  if delegates g then
    if (depth <? frame_limit)%nat
    then let '(o, g', trace') := resume get g trace in (o, (S depth, g'), trace')
    else (Some (Raised RecursionError), (depth, mk_generator (code g) Finished), trace)
  else let '(o, g', trace') := resume get g trace in (o, (depth, g'), trace').

(** [next(g)] under the limit. *)
Fixpoint next_framed (fuel : nat) (depth : nat) (g : generator Item) (trace : list request)
    : option (signal Item * (nat * generator Item) * list request) :=
  match fuel with
  | O => None
  | S fuel' =>
      match resume_framed depth g trace with
      | (Some s, dg, trace') => Some (s, dg, trace')
      | (None, (depth', g'), trace') => next_framed fuel' depth' g' trace'
      end
  end.

(** [list(g)] under the limit. *)
Fixpoint py_list_framed (fuel : nat) (depth : nat) (g : generator Item) (acc : list Item)
    (trace : list request) : option (exc (list Item) * list request) :=
  match fuel with
  | O => None
  | S fuel' =>
      match next_framed fuel' depth g trace with
      | None => None
      | Some (Yielded item, (depth', g'), trace') =>
          py_list_framed fuel' depth' g' (acc ++ [item]) trace'
      | Some (StopIteration, _, trace') => Some (Ok acc, trace')
      | Some (Raised e, _, trace') => Some (Raise e, trace')
      end
  end.

(** The loop of [groups_for_version] under the limit. *)
Fixpoint collect_framed (fuel : nat) (max_count : option Z) (depth : nat)
    (g : generator Item) (groups : list Item) (trace : list request)
    : option (exc (list Item) * list request) :=
  match fuel with
  | O => None
  | S fuel' =>
      match next_framed fuel' depth g trace with
      | None => None
      | Some (Yielded group, (depth', g'), trace') =>
          let groups := groups ++ [group] in
          if match max_count with
             | Some k => Z.of_nat (length groups) >=? k
             | None => false
             end
          then Some (Ok groups, trace')
          else collect_framed fuel' max_count depth' g' groups trace'
      | Some (StopIteration, _, trace') => Some (Ok groups, trace')
      | Some (Raised e, _, trace') => Some (Raise e, trace')
      end
  end.
End Frames.

(** [groups_for_version] under the limit: its generator is the first
    frame. *)
Definition groups_for_version_framed (API_BASE_URL : string)
    (get : string -> Z -> exc Response) (frame_limit : nat) (fuel : nat)
    (app_id : string) (app_version_id : Z) (max_count : option Z) (trace : list request)
    : option (exc (list HockeyCrashGroup.t) * list request) :=
  collect_framed get frame_limit fuel max_count 1
    (generate_groups_for_version API_BASE_URL app_id app_version_id 1) [] trace.

(** [in_group] under the limit. *)
Definition in_group_framed (API_BASE_URL : string)
    (get : string -> Z -> exc Response) (frame_limit : nat) (fuel : nat)
    (app_id : string) (app_version_id crash_group_id : Z) (trace : list request)
    : option (exc (list HockeyCrashInstance.t) * list request) :=
  py_list_framed get frame_limit fuel 1
    (generate_in_group API_BASE_URL app_id app_version_id crash_group_id 1) [] trace.


(* ===================================================================== *)
(** * Equality and hashing: theorems *)
(* ===================================================================== *)

Lemma append_assoc (a b c : string) : (a +:+ b) +:+ c = a +:+ b +:+ c.
Proof.
  induction a as [|x a IH]; [reflexivity|].
  change (String x ((a +:+ b) +:+ c) = String x (a +:+ b +:+ c)).
  now rewrite IH.
Qed.

Section HashingFacts.
Variable hash : string -> Z.

Lemma eq_groups_iff (g1 g2 : HockeyCrashGroup.t) :
  __eq__ hash g1 (PyCrashGroup g2) = true <->
  hash (HockeyCrashGroup.signature_string g1) = hash (HockeyCrashGroup.signature_string g2).
Proof. unfold __eq__, __hash__. apply Z.eqb_eq. Qed.

Lemma same_string_eq (g1 g2 : HockeyCrashGroup.t) :
  HockeyCrashGroup.signature_string g1 = HockeyCrashGroup.signature_string g2 ->
  __eq__ hash g1 (PyCrashGroup g2) = true /\ __hash__ hash g1 = __hash__ hash g2.
Proof.
  intros E. split.
  - apply eq_groups_iff. now rewrite E.
  - unfold __hash__. now rewrite E.
Qed.

Lemma same_properties_same_string (g1 g2 : HockeyCrashGroup.t) :
  HockeyCrashGroup.properties g1 = HockeyCrashGroup.properties g2 ->
  HockeyCrashGroup.signature_string g1 = HockeyCrashGroup.signature_string g2.
Proof. unfold HockeyCrashGroup.signature_string. now intros ->. Qed.
End HashingFacts.

(** C2 (as amended).  Two crash groups whose five signature fields are
    pairwise equal compare equal and hash equal, whatever their identifier,
    counts and timestamps are.  Two groups compare equal exactly when [hash]
    agrees on the joined renderings of their signatures; so two groups that
    compare unequal differ in a signature field. *)
Theorem eq_by_signature (hash : string -> Z) (g1 g2 : HockeyCrashGroup.t) :
  (HockeyCrashGroup.exception_type g1 = HockeyCrashGroup.exception_type g2 ->
   HockeyCrashGroup.reason g1 = HockeyCrashGroup.reason g2 ->
   HockeyCrashGroup.crash_method g1 = HockeyCrashGroup.crash_method g2 ->
   HockeyCrashGroup.crash_file g1 = HockeyCrashGroup.crash_file g2 ->
   HockeyCrashGroup.crash_class g1 = HockeyCrashGroup.crash_class g2 ->
   __eq__ hash g1 (PyCrashGroup g2) = true /\ __hash__ hash g1 = __hash__ hash g2) /\
  (__eq__ hash g1 (PyCrashGroup g2) = true <->
   hash (HockeyCrashGroup.signature_string g1) = hash (HockeyCrashGroup.signature_string g2)) /\
  (__eq__ hash g1 (PyCrashGroup g2) = false ->
   HockeyCrashGroup.exception_type g1 <> HockeyCrashGroup.exception_type g2 \/
   HockeyCrashGroup.reason g1 <> HockeyCrashGroup.reason g2 \/
   HockeyCrashGroup.crash_method g1 <> HockeyCrashGroup.crash_method g2 \/
   HockeyCrashGroup.crash_file g1 <> HockeyCrashGroup.crash_file g2 \/
   HockeyCrashGroup.crash_class g1 <> HockeyCrashGroup.crash_class g2).
Proof.
  assert (same : HockeyCrashGroup.exception_type g1 = HockeyCrashGroup.exception_type g2 ->
                 HockeyCrashGroup.reason g1 = HockeyCrashGroup.reason g2 ->
                 HockeyCrashGroup.crash_method g1 = HockeyCrashGroup.crash_method g2 ->
                 HockeyCrashGroup.crash_file g1 = HockeyCrashGroup.crash_file g2 ->
                 HockeyCrashGroup.crash_class g1 = HockeyCrashGroup.crash_class g2 ->
                 __eq__ hash g1 (PyCrashGroup g2) = true /\
                 __hash__ hash g1 = __hash__ hash g2).
  { intros E1 E2 E3 E4 E5. apply same_string_eq, same_properties_same_string.
    unfold HockeyCrashGroup.properties. congruence. }
  split; [exact same|]. split; [apply eq_groups_iff|].
  intros Hne.
  destruct (decide (HockeyCrashGroup.exception_type g1 = HockeyCrashGroup.exception_type g2))
    as [E1|]; [|now left].
  destruct (decide (HockeyCrashGroup.reason g1 = HockeyCrashGroup.reason g2))
    as [E2|]; [|now right; left].
  destruct (decide (HockeyCrashGroup.crash_method g1 = HockeyCrashGroup.crash_method g2))
    as [E3|]; [|now right; right; left].
  destruct (decide (HockeyCrashGroup.crash_file g1 = HockeyCrashGroup.crash_file g2))
    as [E4|]; [|now right; right; right; left].
  destruct (decide (HockeyCrashGroup.crash_class g1 = HockeyCrashGroup.crash_class g2))
    as [E5|]; [|now right; right; right; right].
  destruct (same E1 E2 E3 E4 E5) as [Heq _]. congruence.
Qed.

(** Two groups with the same signature and different identifiers. *)
Lemma eq_by_signature_witness :
  __eq__ length_hash (a_group 1 (Some "SIGSEGV") None (Some "main") None None)
         (PyCrashGroup (a_group 2 (Some "SIGSEGV") None (Some "main") None None)) = true /\
  __hash__ length_hash (a_group 1 (Some "SIGSEGV") None (Some "main") None None) =
  __hash__ length_hash (a_group 2 (Some "SIGSEGV") None (Some "main") None None).
Proof.
  apply (proj1 (eq_by_signature length_hash
                  (a_group 1 (Some "SIGSEGV") None (Some "main") None None)
                  (a_group 2 (Some "SIGSEGV") None (Some "main") None None)));
    reflexivity.
Defined.

(** C2 as stated fails: a group without exception type and a group whose
    exception type is the string "None" differ in a signature field and
    compare equal, whatever [hash] is. *)
Lemma differing_signatures_compare_equal :
  HockeyCrashGroup.exception_type (a_group 1 None None None None None) <>
  HockeyCrashGroup.exception_type (a_group 1 (Some "None") None None None None) /\
  forall hash : string -> Z,
    __eq__ hash (a_group 1 None None None None None)
           (PyCrashGroup (a_group 1 (Some "None") None None None None)) = true.
Proof.
  split; [discriminate|].
  intros hash. apply eq_groups_iff. reflexivity.
Qed.

(** C10.  Equality and hashing see only the joined rendering of the
    signature: groups with the same joined string compare equal and hash
    equal; a field that is [None] is not told from the string "None"; and
    moving a "-" from the end of one field to the start of the next changes
    nothing. *)
Theorem eq_on_rendering (hash : string -> Z) :
  (forall g1 g2 : HockeyCrashGroup.t,
     HockeyCrashGroup.signature_string g1 = HockeyCrashGroup.signature_string g2 ->
     __eq__ hash g1 (PyCrashGroup g2) = true /\ __hash__ hash g1 = __hash__ hash g2) /\
  (forall (g : HockeyCrashGroup.t) (e r m f c : option string),
     __eq__ hash (with_signature g None r m f c)
            (PyCrashGroup (with_signature g (Some "None") r m f c)) = true /\
     __eq__ hash (with_signature g e None m f c)
            (PyCrashGroup (with_signature g e (Some "None") m f c)) = true /\
     __eq__ hash (with_signature g e r None f c)
            (PyCrashGroup (with_signature g e r (Some "None") f c)) = true /\
     __eq__ hash (with_signature g e r m None c)
            (PyCrashGroup (with_signature g e r m (Some "None") c)) = true /\
     __eq__ hash (with_signature g e r m f None)
            (PyCrashGroup (with_signature g e r m f (Some "None"))) = true) /\
  (forall (g : HockeyCrashGroup.t) (a b c : string) (m f k : option string),
     __eq__ hash (with_signature g (Some (a +:+ "-" +:+ b)) (Some c) m f k)
            (PyCrashGroup (with_signature g (Some a) (Some (b +:+ "-" +:+ c)) m f k)) = true).
Proof.
  split; [apply same_string_eq|]. split.
  - intros g e r m f c. repeat split; apply eq_groups_iff; reflexivity.
  - intros g a b c m f k. apply eq_groups_iff. f_equal.
    unfold HockeyCrashGroup.signature_string, join. simpl.
    now rewrite !append_assoc.
Qed.

(** The signatures ("a-b", "c") and ("a", "b-c") both render as "a-b-c-...". *)
Lemma eq_on_rendering_witness :
  __eq__ length_hash (a_group 1 (Some "a-b") (Some "c") None None None)
         (PyCrashGroup (a_group 2 (Some "a") (Some "b-c") None None None)) = true /\
  __hash__ length_hash (a_group 1 (Some "a-b") (Some "c") None None None) =
  __hash__ length_hash (a_group 2 (Some "a") (Some "b-c") None None None).
Proof.
  apply (proj1 (eq_on_rendering length_hash)). reflexivity.
Defined.

(* ===================================================================== *)
(** * The pagination engine: general facts *)
(* ===================================================================== *)

Section EngineFacts.
Variable get : string -> Z -> exc Response.
Context {Item : Type}.
Implicit Types (g : generator Item) (p : paging Item) (trace : list request).

(** ** [next] and [gives] *)

Lemma next_gives fuel : forall g trace s g' trace',
  next get fuel g trace = Some (s, g', trace') -> gives get g trace s g' trace'.
Proof.
  induction fuel as [|fuel IH]; simpl; [discriminate|].
  intros g trace s g' trace' H.
  destruct (resume get g trace) as [[[s0|] g1] trace1] eqn:R.
  - inversion H; subst. now apply gives_now.
  - eapply gives_later; eauto.
Qed.

Lemma gives_next g trace s g' trace' :
  gives get g trace s g' trace' ->
  exists fuel, forall fuel', (fuel <= fuel')%nat ->
    next get fuel' g trace = Some (s, g', trace').
Proof.
  induction 1 as [g trace s g' trace' R | g trace g1 trace1 s g' trace' R _ [fuel IH]].
  - exists 1%nat. intros [|fuel'] Hle; [lia|]. simpl. now rewrite R.
  - exists (S fuel). intros [|fuel'] Hle; [lia|]. simpl. rewrite R. apply IH. lia.
Qed.

Lemma gives_deterministic g trace s1 g1 trace1 s2 g2 trace2 :
  gives get g trace s1 g1 trace1 -> gives get g trace s2 g2 trace2 ->
  s1 = s2 /\ g1 = g2 /\ trace1 = trace2.
Proof.
  intros H1. revert s2 g2 trace2.
  induction H1 as [g trace s g' trace' R | g trace ga tracea s g' trace' R _ IH];
    intros s2 g2 trace2 H2; inversion H2; subst; try congruence.
  - split; [|split]; congruence.
  - apply IH. congruence.
Qed.

Lemma next_mono fuel : forall fuel' g trace r,
  next get fuel g trace = Some r -> (fuel <= fuel')%nat ->
  next get fuel' g trace = Some r.
Proof.
  induction fuel as [|fuel IH]; intros fuel' g trace r H Hle; [discriminate|].
  destruct fuel' as [|fuel']; [lia|]. simpl in *.
  destruct (resume get g trace) as [[[s0|] ga] tracea]; [assumption|].
  apply IH; [assumption | lia].
Qed.

(** A finished generator stays finished and asks the network nothing. *)
Lemma finished_gives g trace s g' trace' :
  at_ g = Finished -> gives get g trace s g' trace' ->
  s = StopIteration /\ g' = g /\ trace' = trace.
Proof.
  intros F H. inversion H as [? ? ? ? ? R | ? ? ? ? ? ? ? R]; subst;
    unfold resume in R; rewrite F in R; inversion R; subst; auto.
Qed.

Lemma finished_next g trace fuel :
  at_ g = Finished -> next get (S fuel) g trace = Some (StopIteration, g, trace).
Proof. intros F. simpl. unfold resume. now rewrite F. Qed.

(** ** [list(g)] and the loop of [groups_for_version] *)

Lemma collect_None fuel : forall g acc trace,
  collect get fuel None g acc trace = py_list get fuel g acc trace.
Proof.
  induction fuel as [|fuel IH]; simpl; [reflexivity|].
  intros g acc trace.
  destruct (next get fuel g trace) as [[[[item| |e] g'] trace']|]; auto.
Qed.

Lemma py_list_mono fuel : forall fuel' g acc trace r,
  py_list get fuel g acc trace = Some r -> (fuel <= fuel')%nat ->
  py_list get fuel' g acc trace = Some r.
Proof.
  induction fuel as [|fuel IH]; intros fuel' g acc trace r H Hle; [discriminate|].
  destruct fuel' as [|fuel']; [lia|]. simpl in *.
  destruct (next get fuel g trace) as [[[s g'] trace']|] eqn:E; [|discriminate].
  rewrite (next_mono _ fuel' _ _ _ E) by lia.
  destruct s; auto. apply IH; [assumption | lia].
Qed.

Lemma collect_mono max_count fuel : forall fuel' g acc trace r,
  collect get fuel max_count g acc trace = Some r -> (fuel <= fuel')%nat ->
  collect get fuel' max_count g acc trace = Some r.
Proof.
  induction fuel as [|fuel IH]; intros fuel' g acc trace r H Hle; [discriminate|].
  destruct fuel' as [|fuel']; [lia|]. simpl in *.
  destruct (next get fuel g trace) as [[[s g'] trace']|] eqn:E; [|discriminate].
  rewrite (next_mono _ fuel' _ _ _ E) by lia.
  destruct s; auto.
  destruct (match max_count with Some k => _ | None => false end); auto.
  apply IH; [assumption | lia].
Qed.

(** Once the list is returned for all large fuels, any fuel that gives a
    result gives this one. *)
Lemma py_list_unique fuel0 g acc trace r :
  (forall fuel', (fuel0 <= fuel')%nat -> py_list get fuel' g acc trace = Some r) ->
  forall fuel r', py_list get fuel g acc trace = Some r' -> r' = r.
Proof.
  intros H fuel r' H'.
  pose proof (H (Nat.max fuel0 fuel) ltac:(lia)) as H1.
  pose proof (py_list_mono _ (Nat.max fuel0 fuel) _ _ _ _ H' ltac:(lia)) as H2.
  congruence.
Qed.

Lemma collect_unique max_count fuel0 g acc trace r :
  (forall fuel', (fuel0 <= fuel')%nat -> collect get fuel' max_count g acc trace = Some r) ->
  forall fuel r', collect get fuel max_count g acc trace = Some r' -> r' = r.
Proof.
  intros H fuel r' H'.
  pose proof (H (Nat.max fuel0 fuel) ltac:(lia)) as H1.
  pose proof (collect_mono _ _ (Nat.max fuel0 fuel) _ _ _ _ H' ltac:(lia)) as H2.
  congruence.
Qed.
End EngineFacts.

Section SequenceFacts.
Variable get : string -> Z -> exc Response.
Context {Item : Type}.
Implicit Types (g : generator Item) (p : paging Item) (trace : list request).

Lemma gives_raised_finished g trace e g' trace' :
  gives get g trace (Raised e) g' trace' -> at_ g' = Finished.
Proof.
  remember (Raised e) as s eqn:Es.
  induction 1 as [g trace s g' trace' R | g trace g1 trace1 s g' trace' R _ IH]; auto.
  subst s. unfold resume in R.
  destruct (at_ g) as [page|[|item remaining] total_pages page|].
  - destruct (fetch get (code g) page) as [[items total_pages]|e'];
      inversion R; subst; reflexivity.
  - destruct (total_pages >? page); inversion R.
  - inversion R.
  - inversion R.
Qed.

(** ** [list(g)] is the sequence of [g] *)

Lemma py_list_stop g trace g' trace' :
  gives get g trace StopIteration g' trace' ->
  exists fuel, forall fuel', (fuel <= fuel')%nat -> forall acc,
    py_list get fuel' g acc trace = Some (Ok acc, trace').
Proof.
  intros H. destruct (gives_next _ _ _ _ _ _ H) as [fuel Hf].
  exists (S fuel). intros [|fuel'] Hle acc; [lia|].
  simpl. rewrite Hf by lia. reflexivity.
Qed.

Lemma py_list_raise g trace e g' trace' :
  gives get g trace (Raised e) g' trace' ->
  exists fuel, forall fuel', (fuel <= fuel')%nat -> forall acc,
    py_list get fuel' g acc trace = Some (Raise e, trace').
Proof.
  intros H. destruct (gives_next _ _ _ _ _ _ H) as [fuel Hf].
  exists (S fuel). intros [|fuel'] Hle acc; [lia|].
  simpl. rewrite Hf by lia. reflexivity.
Qed.

Lemma py_list_pulls g trace items g1 trace1 :
  pulls get g trace items g1 trace1 ->
  forall r fuel1 acc,
    (forall fuel', (fuel1 <= fuel')%nat ->
       py_list get fuel' g1 (acc ++ items) trace1 = Some r) ->
    exists fuel, forall fuel', (fuel <= fuel')%nat ->
      py_list get fuel' g acc trace = Some r.
Proof.
  induction 1 as [g trace | g trace item ga tracea items g' trace' G _ IH];
    intros r fuel1 acc H1.
  - exists fuel1. intros fuel' Hle. rewrite <- (app_nil_r acc). auto.
  - destruct (gives_next _ _ _ _ _ _ G) as [fa Ha].
    destruct (IH r fuel1 (acc ++ [item])) as [fb Hb].
    { intros fuel' Hle. rewrite <- app_assoc. simpl. auto. }
    exists (S (Nat.max fa fb)). intros [|fuel'] Hle; [lia|].
    simpl. rewrite Ha by lia. apply Hb. lia.
Qed.

Lemma exhausts_py_list g trace items trace' acc :
  exhausts get g trace items trace' ->
  exists fuel, forall fuel', (fuel <= fuel')%nat ->
    py_list get fuel' g acc trace = Some (Ok (acc ++ items), trace').
Proof.
  intros (g1 & trace1 & g' & P & S).
  destruct (py_list_stop _ _ _ _ S) as [fuel1 H1].
  eapply py_list_pulls; eauto.
Qed.

Lemma aborts_py_list g trace items e trace' acc :
  aborts get g trace items e trace' ->
  exists fuel, forall fuel', (fuel <= fuel')%nat ->
    py_list get fuel' g acc trace = Some (Raise e, trace').
Proof.
  intros (g1 & trace1 & g' & P & R & _).
  destruct (py_list_raise _ _ _ _ _ R) as [fuel1 H1].
  eapply py_list_pulls; eauto.
Qed.

Lemma py_list_exhausts fuel : forall g acc trace l trace',
  py_list get fuel g acc trace = Some (Ok l, trace') ->
  exists items, l = acc ++ items /\ exhausts get g trace items trace'.
Proof.
  induction fuel as [|fuel IH]; intros g acc trace l trace' H; [discriminate|].
  simpl in H.
  destruct (next get fuel g trace) as [[[[item| |e] g1] trace1]|] eqn:E;
    try discriminate.
  - destruct (IH _ _ _ _ _ H) as (items & -> & (ga & tracea & g' & P & S)).
    exists (item :: items). split; [now rewrite <- app_assoc|].
    exists ga, tracea, g'. split; [|assumption].
    eapply pulls_cons; eauto using next_gives.
  - inversion H; subst. exists []. split; [now rewrite app_nil_r|].
    exists g, trace, g1. split; [constructor | eauto using next_gives].
Qed.

Lemma py_list_aborts fuel : forall g acc trace e trace',
  py_list get fuel g acc trace = Some (Raise e, trace') ->
  exists items, aborts get g trace items e trace'.
Proof.
  induction fuel as [|fuel IH]; intros g acc trace e trace' H; [discriminate|].
  simpl in H.
  destruct (next get fuel g trace) as [[[[item| |e'] g1] trace1]|] eqn:E;
    try discriminate.
  - destruct (IH _ _ _ _ _ H) as (items & (ga & tracea & g' & P & R & F)).
    exists (item :: items), ga, tracea, g'. split; [|auto].
    eapply pulls_cons; eauto using next_gives.
  - inversion H; subst. apply next_gives in E.
    exists [], g, trace, g1. split; [constructor|].
    split; [assumption | eauto using gives_raised_finished].
Qed.

(** ** The loop of [groups_for_version] with a limit *)

Lemma collect_stop max_count g trace g' trace' :
  gives get g trace StopIteration g' trace' ->
  exists fuel, forall fuel', (fuel <= fuel')%nat -> forall acc,
    collect get fuel' max_count g acc trace = Some (Ok acc, trace').
Proof.
  intros H. destruct (gives_next _ _ _ _ _ _ H) as [fuel Hf].
  exists (S fuel). intros [|fuel'] Hle acc; [lia|].
  simpl. rewrite Hf by lia. reflexivity.
Qed.

(** With a limit [k >= 1] that the sequence reaches, the loop returns the
    first [k] items and leaves the generator where the lazy caller who
    pulled [k] items leaves it: the trace holds the same requests. *)
Lemma collect_pulls g trace items g1 trace1 :
  pulls get g trace items g1 trace1 ->
  items <> [] ->
  forall k acc,
    Z.of_nat (length acc + length items) = k ->
    exists fuel, forall fuel', (fuel <= fuel')%nat ->
      collect get fuel' (Some k) g acc trace = Some (Ok (acc ++ items), trace1).
Proof.
  induction 1 as [g trace | g trace item ga tracea items g' trace' G P IH];
    intros Hne k acc Hk; [congruence|].
  destruct (gives_next _ _ _ _ _ _ G) as [fa Ha].
  destruct items as [|item' items].
  - inversion P; subst. exists (S fa). intros [|fuel'] Hle; [lia|].
    simpl. rewrite Ha by lia.
    rewrite length_app. simpl length.
    replace (Z.of_nat (length acc + 1) >=? Z.of_nat (length acc + 1)) with true; [reflexivity|].
    symmetry. rewrite Z.geb_leb. apply Z.leb_le. lia.
  - destruct (IH ltac:(discriminate) k (acc ++ [item])) as [fb Hb].
    { rewrite length_app. simpl length in *. lia. }
    exists (S (Nat.max fa fb)). intros [|fuel'] Hle; [lia|].
    simpl. rewrite Ha by lia.
    replace (Z.of_nat (length (acc ++ [item])) >=? k) with false.
    + rewrite Hb by lia. now rewrite <- app_assoc.
    + symmetry. rewrite Z.geb_leb. apply Z.leb_gt.
      rewrite length_app. simpl length in *. lia.
Qed.

(** With a limit that the sequence does not reach, the loop returns the
    whole sequence. *)
Lemma collect_below g trace items g1 trace1 :
  pulls get g trace items g1 trace1 ->
  forall k acc r fuel1,
    Z.of_nat (length acc + length items) < k ->
    (forall fuel', (fuel1 <= fuel')%nat ->
       collect get fuel' (Some k) g1 (acc ++ items) trace1 = Some r) ->
    exists fuel, forall fuel', (fuel <= fuel')%nat ->
      collect get fuel' (Some k) g acc trace = Some r.
Proof.
  induction 1 as [g trace | g trace item ga tracea items g' trace' G _ IH];
    intros k acc r fuel1 Hk H1.
  - exists fuel1. intros fuel' Hle. rewrite <- (app_nil_r acc). auto.
  - destruct (gives_next _ _ _ _ _ _ G) as [fa Ha].
    destruct (IH k (acc ++ [item]) r fuel1) as [fb Hb].
    { rewrite length_app. simpl length in *. lia. }
    { intros fuel' Hle. rewrite <- app_assoc. simpl. auto. }
    exists (S (Nat.max fa fb)). intros [|fuel'] Hle; [lia|].
    simpl. rewrite Ha by lia.
    replace (Z.of_nat (length (acc ++ [item])) >=? k) with false.
    + apply Hb. lia.
    + symmetry. rewrite Z.geb_leb. apply Z.leb_gt.
      rewrite length_app. simpl length in *. lia.
Qed.

Lemma collect_short g trace items trace' k acc :
  exhausts get g trace items trace' ->
  Z.of_nat (length acc + length items) < k ->
  exists fuel, forall fuel', (fuel <= fuel')%nat ->
    collect get fuel' (Some k) g acc trace = Some (Ok (acc ++ items), trace').
Proof.
  intros (g1 & trace1 & g' & P & S) Hk.
  destruct (collect_stop (Some k) _ _ _ _ S) as [fuel1 H1].
  eapply collect_below; eauto.
Qed.

Lemma collect_failing g trace items e trace' k acc :
  aborts get g trace items e trace' ->
  Z.of_nat (length acc + length items) < k ->
  exists fuel, forall fuel', (fuel <= fuel')%nat ->
    collect get fuel' (Some k) g acc trace = Some (Raise e, trace').
Proof.
  intros (g1 & trace1 & g' & P & R & _) Hk.
  destruct (gives_next _ _ _ _ _ _ R) as [fuel1 Hf].
  eapply collect_below; eauto.
  instantiate (1 := S fuel1). intros [|fuel'] Hle; [lia|].
  simpl. rewrite Hf by lia. reflexivity.
Qed.
End SequenceFacts.

Section PageFacts.
Variable get : string -> Z -> exc Response.
Context {Item : Type}.
Implicit Types (g : generator Item) (p : paging Item) (trace : list request).

Lemma requests_for_S p page n :
  requests_for p page (S n) =
  mk_request (url_for p page) 3 :: requests_for p (page + 1) n.
Proof.
  unfold requests_for. rewrite seqZ_cons by lia. cbn [map].
  replace (Z.succ page) with (page + 1) by lia.
  replace (Z.pred (Z.of_nat (S n))) with (Z.of_nat n) by lia.
  reflexivity.
Qed.

Lemma requests_for_snoc p page n :
  requests_for p page (S n) =
  requests_for p page n ++ [mk_request (url_for p (page + Z.of_nat n)) 3].
Proof. unfold requests_for. now rewrite seqZ_S, map_app. Qed.

Lemma length_requests_for p page n : length (requests_for p page n) = n.
Proof. unfold requests_for. rewrite length_map, length_seqZ. lia. Qed.

(** ** Moving a sequence over one [resume] *)

Lemma exhausts_silent g trace g1 trace1 items trace' :
  resume get g trace = (None, g1, trace1) ->
  exhausts get g1 trace1 items trace' ->
  exhausts get g trace items trace'.
Proof.
  intros R (ga & tracea & g' & P & S).
  inversion P as [? ? | ? ? item gb traceb rest ? ? G P']; subst.
  - exists g, trace, g'. split; [constructor|]. eapply gives_later; eauto.
  - exists ga, tracea, g'. split; [|assumption].
    eapply pulls_cons; [eapply gives_later; eauto | assumption].
Qed.

Lemma exhausts_yield g trace item g1 trace1 items trace' :
  resume get g trace = (Some (Yielded item), g1, trace1) ->
  exhausts get g1 trace1 items trace' ->
  exhausts get g trace (item :: items) trace'.
Proof.
  intros R (ga & tracea & g' & P & S).
  exists ga, tracea, g'. split; [|assumption].
  eapply pulls_cons; [apply gives_now; eauto | assumption].
Qed.

Lemma aborts_silent g trace g1 trace1 items e trace' :
  resume get g trace = (None, g1, trace1) ->
  aborts get g1 trace1 items e trace' ->
  aborts get g trace items e trace'.
Proof.
  intros R (ga & tracea & g' & P & S & F).
  inversion P as [? ? | ? ? item gb traceb rest ? ? G P']; subst.
  - exists g, trace, g'. split; [constructor|]. split; [|assumption].
    eapply gives_later; eauto.
  - exists ga, tracea, g'. split; [|auto].
    eapply pulls_cons; [eapply gives_later; eauto | assumption].
Qed.

Lemma aborts_yield g trace item g1 trace1 items e trace' :
  resume get g trace = (Some (Yielded item), g1, trace1) ->
  aborts get g1 trace1 items e trace' ->
  aborts get g trace (item :: items) e trace'.
Proof.
  intros R (ga & tracea & g' & P & S & F).
  exists ga, tracea, g'. split; [|auto].
  eapply pulls_cons; [apply gives_now; eauto | assumption].
Qed.

Lemma in_loop_exhausts p total_pages page items : forall trace rest trace',
  exhausts get (mk_generator p (InLoop [] total_pages page)) trace rest trace' ->
  exhausts get (mk_generator p (InLoop items total_pages page)) trace (items ++ rest) trace'.
Proof.
  induction items as [|item items IH]; intros trace rest trace' H; [exact H|].
  simpl. eapply exhausts_yield; [reflexivity | apply IH, H].
Qed.

Lemma in_loop_aborts p total_pages page items : forall trace rest e trace',
  aborts get (mk_generator p (InLoop [] total_pages page)) trace rest e trace' ->
  aborts get (mk_generator p (InLoop items total_pages page)) trace (items ++ rest) e trace'.
Proof.
  induction items as [|item items IH]; intros trace rest e trace' H; [exact H|].
  simpl. eapply aborts_yield; [reflexivity | apply IH, H].
Qed.

Lemma resume_entry_ok p page items total_pages trace :
  fetch get p page = Ok (items, total_pages) ->
  resume get (mk_generator p (AtEntry page)) trace =
  (None, mk_generator p (InLoop items total_pages page),
   trace ++ [mk_request (url_for p page) 3]).
Proof. intros F. unfold resume. simpl. now rewrite F. Qed.

Lemma resume_entry_raise p page e trace :
  fetch get p page = Raise e ->
  resume get (mk_generator p (AtEntry page)) trace =
  (Some (Raised e), mk_generator p Finished,
   trace ++ [mk_request (url_for p page) 3]).
Proof. intros F. unfold resume. simpl. now rewrite F. Qed.

Lemma resume_continue p page total_pages trace :
  total_pages > page ->
  resume get (mk_generator p (InLoop [] total_pages page)) trace =
  (None, mk_generator p (AtEntry (page + 1)), trace).
Proof.
  intros H. unfold resume. simpl.
  replace (total_pages >? page) with true; [reflexivity|].
  symmetry. rewrite Z.gtb_ltb. apply Z.ltb_lt. lia.
Qed.

Lemma resume_stop p page total_pages trace :
  total_pages <= page ->
  resume get (mk_generator p (InLoop [] total_pages page)) trace =
  (Some StopIteration, mk_generator p Finished, trace).
Proof.
  intros H. unfold resume. simpl.
  replace (total_pages >? page) with false; [reflexivity|].
  symmetry. rewrite Z.gtb_ltb. apply Z.ltb_ge. lia.
Qed.

(** ** The pages visited are the sequence *)

Lemma visits_sequence p page pages ending :
  visits get p page pages ending ->
  forall trace,
    match ending with
    | None =>
        exhausts get (mk_generator p (AtEntry page)) trace (concat pages)
                 (trace ++ requests_for p page (length pages))
    | Some e =>
        aborts get (mk_generator p (AtEntry page)) trace (concat pages) e
               (trace ++ requests_for p page (S (length pages)))
    end.
Proof.
  induction 1 as [page items total_pages F Hle
                 | page e F
                 | page items total_pages pages ending F Hgt _ IH]; intros trace.
  - eapply exhausts_silent; [apply resume_entry_ok, F|].
    simpl. apply in_loop_exhausts.
    exists (mk_generator p (InLoop [] total_pages page)),
           (trace ++ [mk_request (url_for p page) 3]),
           (mk_generator p Finished).
    split; [constructor|]. apply gives_now.
    rewrite requests_for_S. simpl. now apply resume_stop.
  - exists (mk_generator p (AtEntry page)), trace, (mk_generator p Finished).
    split; [constructor|]. split; [|reflexivity].
    apply gives_now. rewrite requests_for_S. simpl. now apply resume_entry_raise.
  - specialize (IH (trace ++ [mk_request (url_for p page) 3])).
    destruct ending as [e|].
    + eapply aborts_silent; [apply resume_entry_ok, F|].
      simpl. apply in_loop_aborts.
      eapply aborts_silent; [now apply resume_continue|].
      rewrite requests_for_S.
      rewrite <- app_assoc in IH. exact IH.
    + eapply exhausts_silent; [apply resume_entry_ok, F|].
      simpl. apply in_loop_exhausts.
      eapply exhausts_silent; [now apply resume_continue|].
      rewrite requests_for_S.
      rewrite <- app_assoc in IH. exact IH.
Qed.


(** Pages that continue, up to a page that fails. *)
Lemma failing_visits p e : forall (earlier : list (list Item * Z)) page,
  (forall i items total_pages, earlier !! i = Some (items, total_pages) ->
     fetch get p (page + Z.of_nat i) = Ok (items, total_pages) /\
     total_pages > page + Z.of_nat i) ->
  fetch get p (page + Z.of_nat (length earlier)) = Raise e ->
  visits get p page (map fst earlier) (Some e).
Proof.
  induction earlier as [|[items total_pages] earlier IH]; intros page Hfetch Hfail.
  - simpl in *. rewrite Z.add_0_r in Hfail. now apply visits_failed.
  - destruct (Hfetch 0%nat items total_pages eq_refl) as [F0 Hgt].
    rewrite Z.add_0_r in F0, Hgt.
    simpl. eapply visits_more; [exact F0 | exact Hgt |].
    apply IH.
    + intros i its tp Hi. destruct (Hfetch (S i) its tp Hi) as [F G].
      replace (page + 1 + Z.of_nat i) with (page + Z.of_nat (S i)) by lia. auto.
    + rewrite <- Hfail. f_equal. simpl length. lia.
Qed.

(** ** The requests of a run *)

Lemma in_loop_runs p total_pages page items trace :
  runs get (mk_generator p (InLoop items total_pages page)) trace
       (map Yielded items)
       (mk_generator p (InLoop [] total_pages page)) trace.
Proof.
  induction items as [|item items IH]; [constructor|].
  change (map Yielded (item :: items))
    with (given (Some (Yielded item)) ++ map Yielded items).
  eapply runs_on; [reflexivity | exact IH].
Qed.

Lemma page_runs p page items total_pages trace :
  fetch get p page = Ok (items, total_pages) ->
  runs get (mk_generator p (AtEntry page)) trace
       (map Yielded items)
       (mk_generator p (InLoop [] total_pages page))
       (trace ++ [mk_request (url_for p page) 3]).
Proof.
  intros F.
  change (map Yielded items) with (given None ++ map Yielded items).
  eapply runs_on; [apply resume_entry_ok, F | apply in_loop_runs].
Qed.

Lemma finished_runs g trace signals g' trace' :
  runs get g trace signals g' trace' ->
  at_ g = Finished ->
  g' = g /\ trace' = trace /\ Forall (fun s => s = StopIteration) signals.
Proof.
  induction 1 as [g trace | g trace o g1 trace1 signals g' trace' R _ IH]; intros F.
  - auto.
  - unfold resume in R. rewrite F in R. inversion R; subst.
    destruct (IH F) as (-> & -> & Hall). simpl. auto.
Qed.

Lemma runs_requests p start trace0 g trace signals g' trace' :
  runs get g trace signals g' trace' ->
  forall n,
    code g = p ->
    trace = trace0 ++ requests_for p start n ->
    stands (at_ g) start n ->
    exists n', trace' = trace0 ++ requests_for p start n' /\ code g' = p.
Proof.
  induction 1 as [g trace | g trace o g1 trace1 signals g' trace' R _ IH];
    intros n Hcode Htrace Hpos; [eauto|].
  unfold resume in R.
  destruct (at_ g) as [page|[|item remaining] total_pages page|] eqn:A; simpl in Hpos.
  - assert (Htrace1 : trace ++ [mk_request (url_for (code g) page) 3] =
                      trace0 ++ requests_for p start (S n)).
    { rewrite requests_for_snoc, app_assoc. congruence. }
    destruct (fetch get (code g) page) as [[items total_pages]|e];
      inversion R; subst g1 trace1; apply (IH (S n)); auto; simpl; lia.
  - destruct (total_pages >? page); inversion R; subst g1 trace1;
      apply (IH n); auto; simpl; lia.
  - inversion R; subst g1 trace1. apply (IH n); auto.
  - inversion R; subst g1 trace1. apply (IH n); auto. now rewrite A.
Qed.
End PageFacts.

Section ContinuationFacts.
Variable get : string -> Z -> exc Response.
Context {Item : Type}.
Implicit Types (p : paging Item) (trace : list request).

(** One page of either generator: fetched, yielded item by item, then
    the comparison of this page's [total_pages] with this page's number
    decides. *)
Lemma continuation p N trace items total_pages :
  fetch get p N = Ok (items, total_pages) ->
  runs get (mk_generator p (AtEntry N)) trace (map Yielded items)
       (mk_generator p (InLoop [] total_pages N))
       (trace ++ [mk_request (url_for p N) 3]) /\
  (total_pages > N ->
     resume get (mk_generator p (InLoop [] total_pages N))
            (trace ++ [mk_request (url_for p N) 3]) =
     (None, mk_generator p (AtEntry (N + 1)), trace ++ [mk_request (url_for p N) 3]) /\
     snd (resume get (mk_generator p (AtEntry (N + 1)))
                 (trace ++ [mk_request (url_for p N) 3])) =
     (trace ++ [mk_request (url_for p N) 3]) ++ [mk_request (url_for p (N + 1)) 3]) /\
  (total_pages <= N ->
     resume get (mk_generator p (InLoop [] total_pages N))
            (trace ++ [mk_request (url_for p N) 3]) =
     (Some StopIteration, mk_generator p Finished,
      trace ++ [mk_request (url_for p N) 3]) /\
     forall signals g' trace',
       runs get (mk_generator p Finished) (trace ++ [mk_request (url_for p N) 3])
            signals g' trace' ->
       trace' = trace ++ [mk_request (url_for p N) 3] /\
       Forall (fun s => s = StopIteration) signals).
Proof.
  intros F. split; [now apply page_runs|]. split.
  - intros Hgt. split; [now apply resume_continue|].
    unfold resume. simpl.
    destruct (fetch get p (N + 1)) as [[its tp]|e]; reflexivity.
  - intros Hle. split; [now apply resume_stop|].
    intros signals g' trace' R.
    destruct (finished_runs _ _ _ _ _ _ R eq_refl) as (_ & -> & Hall). auto.
Qed.

(** The eager forms against the sequence of the generator. *)
Lemma py_list_iff_exhausts (g : generator Item) trace items trace' :
  (exists fuel, py_list get fuel g [] trace = Some (Ok items, trace')) <->
  exhausts get g trace items trace'.
Proof.
  split.
  - intros [fuel H]. destruct (py_list_exhausts _ _ _ _ _ _ _ H) as (its & -> & E).
    exact E.
  - intros E. destruct (exhausts_py_list _ _ _ _ _ [] E) as [fuel H].
    exists fuel. apply H. lia.
Qed.
End ContinuationFacts.

(* ===================================================================== *)
(** * The pagination engine: the two collections *)
(* ===================================================================== *)

(** C1.  Both generators, at every page [N] they fetch: the items of the
    page are yielded in order; then page [N + 1] is requested, by the
    generator of the same arguments, exactly when the [total_pages] of page
    [N] itself exceeds [N]; otherwise the generator stops and requests
    nothing more.  No state of the generator keeps a [total_pages] of an
    earlier page. *)
Theorem continuation_rule (API_BASE : string) (get : string -> Z -> exc Response)
    (app_id : string) (app_version_id crash_group_id : Z) :
  (forall (N : Z) (trace : list request) (items : list HockeyCrashGroup.t) (total_pages : Z),
     fetch get (code (generate_groups_for_version API_BASE app_id app_version_id N)) N
       = Ok (items, total_pages) ->
     let p := code (generate_groups_for_version API_BASE app_id app_version_id N) in
     let trace1 := trace ++ [mk_request (groups_url API_BASE app_id app_version_id N) 3] in
     runs get (generate_groups_for_version API_BASE app_id app_version_id N) trace
          (map Yielded items) (mk_generator p (InLoop [] total_pages N)) trace1 /\
     (total_pages > N ->
        resume get (mk_generator p (InLoop [] total_pages N)) trace1 =
        (None, generate_groups_for_version API_BASE app_id app_version_id (N + 1), trace1) /\
        snd (resume get (generate_groups_for_version API_BASE app_id app_version_id (N + 1))
                    trace1) =
        trace1 ++ [mk_request (groups_url API_BASE app_id app_version_id (N + 1)) 3]) /\
     (total_pages <= N ->
        resume get (mk_generator p (InLoop [] total_pages N)) trace1 =
        (Some StopIteration, mk_generator p Finished, trace1) /\
        forall signals g' trace',
          runs get (mk_generator p Finished) trace1 signals g' trace' ->
          trace' = trace1 /\ Forall (fun s => s = StopIteration) signals)) /\
  (forall (N : Z) (trace : list request) (items : list HockeyCrashInstance.t) (total_pages : Z),
     fetch get (code (generate_in_group API_BASE app_id app_version_id crash_group_id N)) N
       = Ok (items, total_pages) ->
     let p := code (generate_in_group API_BASE app_id app_version_id crash_group_id N) in
     let trace1 :=
       trace ++ [mk_request (in_group_url API_BASE app_id app_version_id crash_group_id N) 3] in
     runs get (generate_in_group API_BASE app_id app_version_id crash_group_id N) trace
          (map Yielded items) (mk_generator p (InLoop [] total_pages N)) trace1 /\
     (total_pages > N ->
        resume get (mk_generator p (InLoop [] total_pages N)) trace1 =
        (None, generate_in_group API_BASE app_id app_version_id crash_group_id (N + 1), trace1) /\
        snd (resume get (generate_in_group API_BASE app_id app_version_id crash_group_id (N + 1))
                    trace1) =
        trace1 ++
        [mk_request (in_group_url API_BASE app_id app_version_id crash_group_id (N + 1)) 3]) /\
     (total_pages <= N ->
        resume get (mk_generator p (InLoop [] total_pages N)) trace1 =
        (Some StopIteration, mk_generator p Finished, trace1) /\
        forall signals g' trace',
          runs get (mk_generator p Finished) trace1 signals g' trace' ->
          trace' = trace1 /\ Forall (fun s => s = StopIteration) signals)).
Proof.
  split; intros N trace items total_pages F; exact (continuation get _ N trace items total_pages F).
Qed.

Lemma continuation_rule_witness :
  (resume two_pages
          (mk_generator (code (generate_groups_for_version API "app" 7 1)) (InLoop [] 2 1))
          ([] ++ [mk_request (groups_url API "app" 7 1) 3]) =
   (None, generate_groups_for_version API "app" 7 (1 + 1),
    [] ++ [mk_request (groups_url API "app" 7 1) 3]) /\
   snd (resume two_pages (generate_groups_for_version API "app" 7 (1 + 1))
               ([] ++ [mk_request (groups_url API "app" 7 1) 3])) =
   ([] ++ [mk_request (groups_url API "app" 7 1) 3]) ++
   [mk_request (groups_url API "app" 7 (1 + 1)) 3]) /\
  resume two_pages
         (mk_generator (code (generate_in_group API "app" 7 5 2)) (InLoop [] 2 2))
         ([mk_request (in_group_url API "app" 7 5 1) 3] ++
          [mk_request (in_group_url API "app" 7 5 2) 3]) =
  (Some StopIteration, mk_generator (code (generate_in_group API "app" 7 5 2)) Finished,
   [mk_request (in_group_url API "app" 7 5 1) 3] ++
   [mk_request (in_group_url API "app" 7 5 2) 3]).
Proof.
  split.
  - assert (F : fetch two_pages (code (generate_groups_for_version API "app" 7 1)) 1 =
                Ok (first_groups, 2)) by (vm_compute; reflexivity).
    pose proof (proj1 (continuation_rule API two_pages "app" 7 5) 1 [] _ 2 F) as H.
    cbv zeta in H. destruct H as (_ & Hgt & _). apply Hgt. lia.
  - assert (F : fetch two_pages (code (generate_in_group API "app" 7 5 2)) 2 =
                Ok (last_crashes, 2)) by (vm_compute; reflexivity).
    pose proof (proj2 (continuation_rule API two_pages "app" 7 5) 2
                  [mk_request (in_group_url API "app" 7 5 1) 3] _ 2 F) as H.
    cbv zeta in H. destruct H as (_ & _ & Hle). apply Hle. lia.
Defined.

(** C4.  Consumed to exhaustion, the eager forms return the sequence of the
    lazy forms, the same items in the same order, with the same requests:
    [groups_for_version] without [max_count] returns a list exactly when the
    generator yields this list and stops, and so does [in_group]; and
    [groups_for_version] without [max_count] is [list] of its generator. *)
Theorem eager_is_lazy (API_BASE : string) (get : string -> Z -> exc Response)
    (app_id : string) (app_version_id crash_group_id : Z) (trace : list request) :
  (forall (groups : list HockeyCrashGroup.t) (trace' : list request),
     (exists fuel, groups_for_version API_BASE get fuel app_id app_version_id None trace
                   = Some (Ok groups, trace')) <->
     exhausts get (generate_groups_for_version API_BASE app_id app_version_id 1)
              trace groups trace') /\
  (forall (crashes : list HockeyCrashInstance.t) (trace' : list request),
     (exists fuel, in_group API_BASE get fuel app_id app_version_id crash_group_id trace
                   = Some (Ok crashes, trace')) <->
     exhausts get (generate_in_group API_BASE app_id app_version_id crash_group_id 1)
              trace crashes trace') /\
  (forall fuel,
     groups_for_version API_BASE get fuel app_id app_version_id None trace =
     py_list get fuel (generate_groups_for_version API_BASE app_id app_version_id 1) [] trace).
Proof.
  split; [|split].
  - intros groups trace'. unfold groups_for_version.
    rewrite <- py_list_iff_exhausts.
    split; intros [fuel H]; exists fuel; [rewrite <- collect_None | rewrite collect_None];
      exact H.
  - intros crashes trace'. unfold in_group. apply py_list_iff_exhausts.
  - intros fuel. apply collect_None.
Qed.


Lemma groups_url_is_shape (API_BASE app_id : string) (app_version_id page : Z) :
  groups_url API_BASE app_id app_version_id page =
  groups_url_shape API_BASE app_id app_version_id page.
Proof.
  unfold groups_url, groups_url_shape. rewrite !append_assoc. reflexivity.
Qed.

Lemma in_group_url_is_shape (API_BASE app_id : string)
    (app_version_id crash_group_id page : Z) :
  in_group_url API_BASE app_id app_version_id crash_group_id page =
  in_group_url_shape API_BASE app_id app_version_id crash_group_id page.
Proof.
  unfold in_group_url, in_group_url_shape. rewrite !append_assoc. reflexivity.
Qed.

Section FailureFacts.
Variable get : string -> Z -> exc Response.
Context {Item : Type}.

(** Pages that continue up to a page that fails: the sequence is the
    items of the pages before it, then the exception; [list] and the loop
    of [groups_for_version], unless its limit is met before, raise it. *)
Lemma failure (p : paging Item) (trace : list request) (e : exn)
    (earlier : list (list Item * Z)) :
  (forall i items total_pages, earlier !! i = Some (items, total_pages) ->
     fetch get p (1 + Z.of_nat i) = Ok (items, total_pages) /\
     total_pages > 1 + Z.of_nat i) ->
  fetch get p (1 + Z.of_nat (length earlier)) = Raise e ->
  aborts get (mk_generator p (AtEntry 1)) trace (concat (map fst earlier)) e
         (trace ++ requests_for p 1 (S (length earlier))) /\
  (exists fuel, forall fuel', (fuel <= fuel')%nat ->
     py_list get fuel' (mk_generator p (AtEntry 1)) [] trace =
     Some (Raise e, trace ++ requests_for p 1 (S (length earlier)))) /\
  (forall fuel r,
     py_list get fuel (mk_generator p (AtEntry 1)) [] trace = Some r ->
     r = (Raise e, trace ++ requests_for p 1 (S (length earlier)))) /\
  (forall k, Z.of_nat (length (concat (map fst earlier))) < k ->
     (exists fuel, forall fuel', (fuel <= fuel')%nat ->
        collect get fuel' (Some k) (mk_generator p (AtEntry 1)) [] trace =
        Some (Raise e, trace ++ requests_for p 1 (S (length earlier)))) /\
     (forall fuel r,
        collect get fuel (Some k) (mk_generator p (AtEntry 1)) [] trace = Some r ->
        r = (Raise e, trace ++ requests_for p 1 (S (length earlier))))).
Proof.
  intros Hearlier Hfail.
  pose proof (visits_sequence get p 1 _ _
                (failing_visits get p e earlier 1 Hearlier Hfail) trace) as A.
  simpl in A. rewrite length_map in A.
  split; [exact A|].
  destruct (aborts_py_list get _ _ _ _ _ [] A) as [fuel H].
  split; [exists fuel; exact H|].
  split; [exact (py_list_unique get fuel _ _ _ _ H)|].
  intros k Hk.
  destruct (collect_failing get _ _ _ _ _ k [] A) as [fuel' H']; [simpl; lia|].
  split; [exists fuel'; exact H' | exact (collect_unique get _ fuel' _ _ _ _ H')].
Qed.
End FailureFacts.

(** C7.  When the pages before some page are fetched and continue, and
    this page cannot be fetched or decoded, the exception is not caught: the
    generator yields the items of the earlier pages, then raises it and is
    finished, so nothing of the failed page is yielded; [in_group] raises it,
    and so does [groups_for_version] unless its [max_count] is met by the
    items of the earlier pages; neither returns a list. *)
Theorem errors_propagate (API_BASE : string) (get : string -> Z -> exc Response)
    (app_id : string) (app_version_id crash_group_id : Z) (trace : list request)
    (e : exn) :
  (forall earlier : list (list HockeyCrashGroup.t * Z),
     (forall i items total_pages, earlier !! i = Some (items, total_pages) ->
        fetch get (code (generate_groups_for_version API_BASE app_id app_version_id 1))
              (1 + Z.of_nat i) = Ok (items, total_pages) /\
        total_pages > 1 + Z.of_nat i) ->
     fetch get (code (generate_groups_for_version API_BASE app_id app_version_id 1))
           (1 + Z.of_nat (length earlier)) = Raise e ->
     let yielded := concat (map fst earlier) in
     let trace' :=
       trace ++ map (fun page => mk_request (groups_url API_BASE app_id app_version_id page) 3)
                    (seqZ 1 (Z.of_nat (S (length earlier)))) in
     aborts get (generate_groups_for_version API_BASE app_id app_version_id 1)
            trace yielded e trace' /\
     (forall max_count,
        max_count = None \/
        (exists k, max_count = Some k /\ Z.of_nat (length yielded) < k) ->
        (exists fuel, forall fuel', (fuel <= fuel')%nat ->
           groups_for_version API_BASE get fuel' app_id app_version_id max_count trace =
           Some (Raise e, trace')) /\
        (forall fuel r,
           groups_for_version API_BASE get fuel app_id app_version_id max_count trace = Some r ->
           r = (Raise e, trace')))) /\
  (forall earlier : list (list HockeyCrashInstance.t * Z),
     (forall i items total_pages, earlier !! i = Some (items, total_pages) ->
        fetch get (code (generate_in_group API_BASE app_id app_version_id crash_group_id 1))
              (1 + Z.of_nat i) = Ok (items, total_pages) /\
        total_pages > 1 + Z.of_nat i) ->
     fetch get (code (generate_in_group API_BASE app_id app_version_id crash_group_id 1))
           (1 + Z.of_nat (length earlier)) = Raise e ->
     let yielded := concat (map fst earlier) in
     let trace' :=
       trace ++ map (fun page =>
                       mk_request
                         (in_group_url API_BASE app_id app_version_id crash_group_id page) 3)
                    (seqZ 1 (Z.of_nat (S (length earlier)))) in
     aborts get (generate_in_group API_BASE app_id app_version_id crash_group_id 1)
            trace yielded e trace' /\
     (exists fuel, forall fuel', (fuel <= fuel')%nat ->
        in_group API_BASE get fuel' app_id app_version_id crash_group_id trace =
        Some (Raise e, trace')) /\
     (forall fuel r,
        in_group API_BASE get fuel app_id app_version_id crash_group_id trace = Some r ->
        r = (Raise e, trace'))).
Proof.
  split; intros earlier Hearlier Hfail; cbv zeta;
    destruct (failure get _ trace e earlier Hearlier Hfail) as (A & L & U & C).
  - split; [exact A|].
    intros max_count [->|(k & -> & Hk)]; unfold groups_for_version.
    + split.
      * destruct L as [fuel H]. exists fuel. intros fuel' Hle.
        rewrite collect_None. now apply H.
      * intros fuel r H. rewrite collect_None in H. eauto.
    + exact (C k Hk).
  - split; [exact A|]. split; [exact L | exact U].
Qed.

Lemma errors_propagate_witness :
  (exists fuel, forall fuel', (fuel <= fuel')%nat ->
     groups_for_version API second_page_fails fuel' "app" 7 None [] =
     Some (Raise (RequestFailed 404),
           [] ++ map (fun page => mk_request (groups_url API "app" 7 page) 3)
                     (seqZ 1 (Z.of_nat (S (length [(first_groups, 2)])))))) /\
  aborts second_page_fails (generate_in_group API "app" 7 5 1) []
         (concat (map fst [(first_crashes, 2)])) (RequestFailed 404)
         ([] ++ map (fun page => mk_request (in_group_url API "app" 7 5 page) 3)
                    (seqZ 1 (Z.of_nat (S (length [(first_crashes, 2)]))))).
Proof.
  split.
  - refine (proj1 (proj2 (proj1 (errors_propagate API second_page_fails "app" 7 5 []
                                   (RequestFailed 404))
                            [(first_groups, 2)] _ _) None (or_introl eq_refl))).
    + intros [|i] items total_pages Hi; inversion Hi; subst.
      split; [vm_compute; reflexivity | lia].
    + vm_compute; reflexivity.
  - refine (proj1 (proj2 (errors_propagate API second_page_fails "app" 7 5 []
                            (RequestFailed 404))
                     [(first_crashes, 2)] _ _)).
    + intros [|i] items total_pages Hi; inversion Hi; subst.
      split; [vm_compute; reflexivity | lia].
    + vm_compute; reflexivity.
Defined.

(* ===================================================================== *)
(** * [groups_for_version] with [max_count] *)
(* ===================================================================== *)

(** X3.  With a [max_count] of at least one that the sequence reaches,
    [groups_for_version] returns the first [max_count] items of the
    sequence, and has issued the requests of the lazy caller who pulls
    these items and no other. *)
Lemma limit_reached (API_BASE : string) (get : string -> Z -> exc Response)
    (app_id : string) (app_version_id : Z) (trace : list request) (k : Z)
    (groups : list HockeyCrashGroup.t) g' trace' :
  1 <= k ->
  pulls get (generate_groups_for_version API_BASE app_id app_version_id 1)
        trace groups g' trace' ->
  Z.of_nat (length groups) = k ->
  exists fuel, forall fuel', (fuel <= fuel')%nat ->
    groups_for_version API_BASE get fuel' app_id app_version_id (Some k) trace =
    Some (Ok groups, trace').
Proof.
  intros Hk P Hlen. unfold groups_for_version.
  apply (collect_pulls get _ _ _ _ _ P); [|exact Hlen].
  intros ->. simpl in Hlen. lia.
Qed.

(** X4.  With a [max_count] that the sequence does not reach,
    [groups_for_version] returns the whole sequence. *)
Lemma limit_not_reached (API_BASE : string) (get : string -> Z -> exc Response)
    (app_id : string) (app_version_id : Z) (trace : list request) (k : Z)
    (groups : list HockeyCrashGroup.t) trace' :
  exhausts get (generate_groups_for_version API_BASE app_id app_version_id 1)
           trace groups trace' ->
  Z.of_nat (length groups) < k ->
  exists fuel, forall fuel', (fuel <= fuel')%nat ->
    groups_for_version API_BASE get fuel' app_id app_version_id (Some k) trace =
    Some (Ok groups, trace').
Proof.
  intros E Hlen. unfold groups_for_version.
  apply (collect_short get _ _ _ _ k [] E). simpl. lia.
Qed.

(** C3 fails at [max_count = 0]: the loop appends before it compares, so
    the first group is fetched and returned, where the first 0 items of the
    sequence are none and need no request. *)
Theorem max_count_zero_returns_a_group :
  groups_for_version API two_pages 3 "app" 7 (Some 0) [] =
    Some (Ok [a_group 1 (Some "SIGSEGV") None None None None],
          [mk_request (groups_url API "app" 7 1) 3]) /\
  firstn 0 (first_groups ++ last_groups) = [] /\
  pulls two_pages (generate_groups_for_version API "app" 7 1) [] []
        (generate_groups_for_version API "app" 7 1) [].
Proof.
  split; [vm_compute; reflexivity|]. split; [reflexivity | constructor].
Qed.

(* ===================================================================== *)
(** * Decoding a crash group *)
(* ===================================================================== *)

Lemma field_int_ok keys data attribute n :
  field_int keys data attribute = Ok n ->
  data !! key_for keys attribute = Some (JNumber n).
Proof.
  unfold field_int. destruct (data !! key_for keys attribute) as [[]|];
    intros H; inversion H; reflexivity.
Qed.

Lemma field_int_missing keys data attribute :
  data !! key_for keys attribute = None ->
  field_int keys data attribute = Raise (DeserializeException attribute).
Proof. unfold field_int. now intros ->. Qed.

Lemma field_optional_str_ok keys data attribute x :
  field_optional_str keys data attribute = Ok x ->
  forall s, data !! key_for keys attribute = Some (JString s) -> x = Some s.
Proof.
  unfold field_optional_str. intros H s E. rewrite E in H. now inversion H.
Qed.

Lemma deserialize_json_of_group (g : HockeyCrashGroup.t) :
  deserialize_HockeyCrashGroup (json_of_group g) = Ok g.
Proof.
  destruct g as [identifier app_id created_at updated_at status reason last_crash_at
                 exception_type fixed app_version_id bundle_version bundle_short_version
                 number_of_crashes grouping_hash grouping_type pattern crash_method
                 crash_file crash_class crash_line].
  destruct reason, exception_type, pattern, crash_method, crash_file, crash_class,
    crash_line; reflexivity.
Qed.

(** C8.  A raw record that carries the keys [id], [method], [file],
    [class] and [line] decodes into a crash group whose [identifier],
    [crash_method], [crash_file], [crash_class] and [crash_line] are the
    values under these keys; the record the service sends for a group
    decodes to this group; and a record without the key [id] does not
    decode, whatever it has under other keys. *)
Theorem decode_renames :
  (forall (data : gmap string json_value) (i : Z) (m f c l : string)
          (g : HockeyCrashGroup.t),
     data !! "id" = Some (JNumber i) ->
     data !! "method" = Some (JString m) ->
     data !! "file" = Some (JString f) ->
     data !! "class" = Some (JString c) ->
     data !! "line" = Some (JString l) ->
     deserialize_HockeyCrashGroup (JObject data) = Ok g ->
     HockeyCrashGroup.identifier g = i /\
     HockeyCrashGroup.crash_method g = Some m /\
     HockeyCrashGroup.crash_file g = Some f /\
     HockeyCrashGroup.crash_class g = Some c /\
     HockeyCrashGroup.crash_line g = Some l) /\
  (forall g : HockeyCrashGroup.t, deserialize_HockeyCrashGroup (json_of_group g) = Ok g) /\
  (forall data : gmap string json_value,
     data !! "id" = None ->
     deserialize_HockeyCrashGroup (JObject data) = Raise (DeserializeException "identifier")).
Proof.
  split; [|split].
  - intros data i m f c l g Hi Hm Hf Hc Hl H.
    unfold deserialize_HockeyCrashGroup in H. cbv zeta in H.
    bound H identifier Hidentifier. bound H app_id Happ_id.
    bound H created_at Hcreated_at. bound H updated_at Hupdated_at.
    bound H status Hstatus. bound H reason Hreason.
    bound H last_crash_at Hlast_crash_at. bound H exception_type Hexception_type.
    bound H fixed Hfixed. bound H app_version_id Happ_version_id.
    bound H bundle_version Hbundle_version.
    bound H bundle_short_version Hbundle_short_version.
    bound H number_of_crashes Hnumber_of_crashes. bound H grouping_hash Hgrouping_hash.
    bound H grouping_type Hgrouping_type. bound H pattern Hpattern.
    bound H crash_method Hcrash_method. bound H crash_file Hcrash_file.
    bound H crash_class Hcrash_class. bound H crash_line Hcrash_line.
    inversion H; subst g; simpl.
    apply field_int_ok in Hidentifier.
    change (key_for HockeyCrashGroup.keys "identifier") with "id"%string in Hidentifier.
    pose proof (field_optional_str_ok _ _ _ _ Hcrash_method m Hm).
    pose proof (field_optional_str_ok _ _ _ _ Hcrash_file f Hf).
    pose proof (field_optional_str_ok _ _ _ _ Hcrash_class c Hc).
    pose proof (field_optional_str_ok _ _ _ _ Hcrash_line l Hl).
    repeat split; congruence.
  - exact deserialize_json_of_group.
  - intros data Hnone. unfold deserialize_HockeyCrashGroup. cbv zeta.
    rewrite (field_int_missing HockeyCrashGroup.keys data "identifier") by exact Hnone.
    reflexivity.
Qed.

Lemma decode_renames_witness :
  HockeyCrashGroup.identifier (a_group 9 (Some "SIGSEGV") None (Some "main") (Some "main.m")
                                       (Some "AppDelegate")) = 9 /\
  HockeyCrashGroup.crash_method (a_group 9 (Some "SIGSEGV") None (Some "main")
                                         (Some "main.m") (Some "AppDelegate")) = Some "main" /\
  HockeyCrashGroup.crash_file (a_group 9 (Some "SIGSEGV") None (Some "main")
                                       (Some "main.m") (Some "AppDelegate")) = Some "main.m" /\
  HockeyCrashGroup.crash_class (a_group 9 (Some "SIGSEGV") None (Some "main")
                                        (Some "main.m") (Some "AppDelegate"))
    = Some "AppDelegate" /\
  HockeyCrashGroup.crash_line (a_group 9 (Some "SIGSEGV") None (Some "main")
                                       (Some "main.m") (Some "AppDelegate")) = Some "42".
Proof.
  refine (proj1 decode_renames
            (match json_of_group (a_group 9 (Some "SIGSEGV") None (Some "main")
                                          (Some "main.m") (Some "AppDelegate")) with
             | JObject data => data
             | _ => ∅
             end)
            9 "main" "main.m" "AppDelegate" "42" _ _ _ _ _ _ _);
    vm_compute; reflexivity.
Defined.

(* ===================================================================== *)
(** * Equality of crash groups: further properties *)
(* ===================================================================== *)

(** X1.  On crash groups [__eq__] is an equivalence: every group equals
    itself, the comparison does not depend on the side a group stands on,
    and it is transitive; and groups that compare equal hash equal, as sets
    and dictionaries need. *)
Theorem eq_equivalence (hash : string -> Z) (g1 g2 g3 : HockeyCrashGroup.t) :
  __eq__ hash g1 (PyCrashGroup g1) = true /\
  __eq__ hash g1 (PyCrashGroup g2) = __eq__ hash g2 (PyCrashGroup g1) /\
  (__eq__ hash g1 (PyCrashGroup g2) = true ->
   __eq__ hash g2 (PyCrashGroup g3) = true ->
   __eq__ hash g1 (PyCrashGroup g3) = true) /\
  (__eq__ hash g1 (PyCrashGroup g2) = true -> __hash__ hash g1 = __hash__ hash g2).
Proof.
  split; [now apply eq_groups_iff|]. split; [|split].
  - unfold __eq__. simpl. apply Z.eqb_sym.
  - rewrite !eq_groups_iff. congruence.
  - rewrite eq_groups_iff. unfold __hash__. auto.
Qed.

Lemma eq_equivalence_witness :
  __eq__ length_hash (a_group 1 (Some "SIGSEGV") None None None None)
         (PyCrashGroup (a_group 3 (Some "SIGTRAP") None None None None)) = true.
Proof.
  apply (proj1 (proj2 (proj2 (eq_equivalence length_hash
           (a_group 1 (Some "SIGSEGV") None None None None)
           (a_group 2 (Some "SIGABRT") None None None None)
           (a_group 3 (Some "SIGTRAP") None None None None)))));
    reflexivity.
Defined.

Lemma append_cons (a : ascii) (s t : string) :
  String a s +:+ t = String a (s +:+ t).
Proof. reflexivity. Qed.

Lemma append_inv_head (a x y : string) : a +:+ x = a +:+ y -> x = y.
Proof.
  induction a as [|c a IH]; [auto|].
  rewrite !append_cons. intros H. inversion H. auto.
Qed.

(** Two strings without [c], each followed by [c], are read back from
    their concatenations. *)
Lemma append_sep_inj (c : ascii) : forall s1 s2 x y : string,
  has_char c s1 = false -> has_char c s2 = false ->
  s1 +:+ String c x = s2 +:+ String c y ->
  s1 = s2 /\ x = y.
Proof.
  induction s1 as [|a s1 IH]; intros [|b s2] x y H1 H2 E.
  - inversion E. auto.
  - rewrite append_cons in E. inversion E; subst b.
    simpl in H2. now rewrite Ascii.eqb_refl in H2.
  - rewrite append_cons in E. inversion E; subst a.
    simpl in H1. now rewrite Ascii.eqb_refl in H1.
  - rewrite !append_cons in E. inversion E; subst b.
    simpl in H1, H2. apply orb_false_iff in H1 as [_ H1]. apply orb_false_iff in H2 as [_ H2].
    destruct (IH s2 x y H1 H2) as [-> ->]; auto.
Qed.

Lemma plain_no_dash (x : option string) :
  plain x = true -> has_char "-"%char (str_optional x) = false.
Proof.
  destruct x as [s|]; simpl; [|reflexivity].
  intros H. apply andb_true_iff in H as [H _]. now apply negb_true_iff in H.
Qed.

Lemma str_optional_inj (x y : option string) :
  match x with Some s => negb (String.eqb s "None") | None => true end = true ->
  match y with Some s => negb (String.eqb s "None") | None => true end = true ->
  str_optional x = str_optional y -> x = y.
Proof.
  destruct x as [s|], y as [t|]; simpl; intros Hx Hy E; subst; auto.
  - apply negb_true_iff in Hx. now rewrite String.eqb_refl in Hx.
  - apply negb_true_iff in Hy. now rewrite String.eqb_refl in Hy.
Qed.

Lemma plain_not_none (x : option string) :
  plain x = true ->
  match x with Some s => negb (String.eqb s "None") | None => true end = true.
Proof. destruct x as [s|]; simpl; [|auto]. intros H. now apply andb_true_iff in H as [_ H]. Qed.

(** On clean signatures the joined rendering is read back field by field. *)
Lemma signature_string_inj (g1 g2 : HockeyCrashGroup.t) :
  clean_signature g1 = true -> clean_signature g2 = true ->
  HockeyCrashGroup.signature_string g1 = HockeyCrashGroup.signature_string g2 ->
  HockeyCrashGroup.properties g1 = HockeyCrashGroup.properties g2.
Proof.
  unfold clean_signature, HockeyCrashGroup.signature_string, HockeyCrashGroup.properties, join.
  intros C1 C2 E.
  repeat (apply andb_true_iff in C1 as [C1 ?]). repeat (apply andb_true_iff in C2 as [C2 ?]).
  cbn [map String.concat] in E.
  change ("-" +:+ ?x)%string with (String "-" x) in E.
  apply append_sep_inj in E as [E1 E]; auto using plain_no_dash.
  apply append_sep_inj in E as [E2 E]; auto using plain_no_dash.
  apply append_sep_inj in E as [E3 E]; auto using plain_no_dash.
  apply append_sep_inj in E as [E4 E]; auto using plain_no_dash.
  apply str_optional_inj in E1, E2, E3, E4, E; auto using plain_not_none.
  congruence.
Qed.

(** X2.  Where [hash] tells the two joined renderings apart, groups with
    clean signatures (no "-" in the first four fields, no field that is the
    string "None") compare equal only if their five signature fields are
    equal. *)
Theorem eq_exact_on_clean_signatures (hash : string -> Z) (g1 g2 : HockeyCrashGroup.t) :
  clean_signature g1 = true ->
  clean_signature g2 = true ->
  (hash (HockeyCrashGroup.signature_string g1) = hash (HockeyCrashGroup.signature_string g2) ->
   HockeyCrashGroup.signature_string g1 = HockeyCrashGroup.signature_string g2) ->
  __eq__ hash g1 (PyCrashGroup g2) = true ->
  HockeyCrashGroup.exception_type g1 = HockeyCrashGroup.exception_type g2 /\
  HockeyCrashGroup.reason g1 = HockeyCrashGroup.reason g2 /\
  HockeyCrashGroup.crash_method g1 = HockeyCrashGroup.crash_method g2 /\
  HockeyCrashGroup.crash_file g1 = HockeyCrashGroup.crash_file g2 /\
  HockeyCrashGroup.crash_class g1 = HockeyCrashGroup.crash_class g2.
Proof.
  intros C1 C2 Hhash Heq. apply eq_groups_iff in Heq.
  pose proof (signature_string_inj g1 g2 C1 C2 (Hhash Heq)) as P.
  unfold HockeyCrashGroup.properties in P. inversion P. auto.
Qed.

Lemma eq_exact_on_clean_signatures_witness :
  HockeyCrashGroup.exception_type (a_group 1 (Some "SIGSEGV") None (Some "main") None None) =
  HockeyCrashGroup.exception_type (a_group 2 (Some "SIGSEGV") None (Some "main") None None) /\
  HockeyCrashGroup.reason (a_group 1 (Some "SIGSEGV") None (Some "main") None None) =
  HockeyCrashGroup.reason (a_group 2 (Some "SIGSEGV") None (Some "main") None None) /\
  HockeyCrashGroup.crash_method (a_group 1 (Some "SIGSEGV") None (Some "main") None None) =
  HockeyCrashGroup.crash_method (a_group 2 (Some "SIGSEGV") None (Some "main") None None) /\
  HockeyCrashGroup.crash_file (a_group 1 (Some "SIGSEGV") None (Some "main") None None) =
  HockeyCrashGroup.crash_file (a_group 2 (Some "SIGSEGV") None (Some "main") None None) /\
  HockeyCrashGroup.crash_class (a_group 1 (Some "SIGSEGV") None (Some "main") None None) =
  HockeyCrashGroup.crash_class (a_group 2 (Some "SIGSEGV") None (Some "main") None None).
Proof.
  apply (eq_exact_on_clean_signatures length_hash); reflexivity.
Defined.

(* ===================================================================== *)
(** * [groups_for_version] with [max_count]: further properties *)
(* ===================================================================== *)

Section LazyCallerFacts.
Variable get : string -> Z -> exc Response.
Context {Item : Type}.
Implicit Types (g : generator Item) (trace : list request).

Lemma pull_pulls fuel n : forall g trace items g' trace',
  pull get fuel n g trace = Some (items, g', trace') ->
  pulls get g trace items g' trace'.
Proof.
  induction n as [|n IH]; intros g trace items g' trace' H; simpl in H.
  - inversion H; subst. constructor.
  - destruct (next get fuel g trace) as [[[[item| |e] g1] trace1]|] eqn:E; try discriminate.
    destruct (pull get fuel n g1 trace1) as [[[its g2] trace2]|] eqn:P; [|discriminate].
    inversion H; subst. eapply pulls_cons; eauto using next_gives.
Qed.

Lemma exhausts_cons g trace item g1 trace1 items trace' :
  gives get g trace (Yielded item) g1 trace1 ->
  exhausts get g1 trace1 items trace' ->
  exhausts get g trace (item :: items) trace'.
Proof.
  intros G (ga & tracea & g' & P & S).
  exists ga, tracea, g'. split; [eapply pulls_cons; eauto | assumption].
Qed.

Lemma collect_sound fuel : forall max_count g acc trace l trace',
  collect get fuel max_count g acc trace = Some (Ok l, trace') ->
  exists items,
    l = acc ++ items /\
    (exhausts get g trace items trace' \/
     exists k g', max_count = Some k /\ items <> [] /\ Z.of_nat (length l) >= k /\
                  pulls get g trace items g' trace').
Proof.
  induction fuel as [|fuel IH]; intros max_count g acc trace l trace' H; [discriminate|].
  simpl in H.
  destruct (next get fuel g trace) as [[[[item| |e] g1] trace1]|] eqn:E; try discriminate.
  - apply next_gives in E.
    destruct (match max_count with
              | Some k => Z.of_nat (length (acc ++ [item])) >=? k
              | None => false
              end) eqn:T.
    + inversion H; subst. exists [item]. split; [reflexivity|]. right.
      destruct max_count as [k|]; [|discriminate].
      exists k, g1. split; [reflexivity|]. split; [discriminate|].
      split; [|eapply pulls_cons; [eassumption | constructor]].
      rewrite Z.geb_leb in T. apply Z.leb_le in T. lia.
    + destruct (IH _ _ _ _ _ _ H) as (items & -> & [X | (k & g' & -> & Hne & Hlen & P)]).
      * exists (item :: items). split; [now rewrite <- app_assoc|]. left.
        eapply exhausts_cons; eauto.
      * exists (item :: items). split; [now rewrite <- app_assoc|]. right.
        exists k, g'. split; [reflexivity|]. split; [discriminate|].
        split; [exact Hlen | eapply pulls_cons; eauto].
  - inversion H; subst. exists []. split; [now rewrite app_nil_r|]. left.
    exists g, trace, g1. split; [constructor | eauto using next_gives].
Qed.

Lemma collect_bounded fuel : forall k g acc trace l trace',
  collect get fuel (Some k) g acc trace = Some (Ok l, trace') ->
  Z.of_nat (length acc) < Z.max 1 k ->
  Z.of_nat (length l) <= Z.max 1 k.
Proof.
  induction fuel as [|fuel IH]; intros k g acc trace l trace' H Hacc; [discriminate|].
  simpl in H.
  destruct (next get fuel g trace) as [[[[item| |e] g1] trace1]|] eqn:E; try discriminate.
  - destruct (Z.of_nat (length (acc ++ [item])) >=? k) eqn:T.
    + inversion H; subst. rewrite length_app. simpl. lia.
    + apply (IH _ _ _ _ _ _ H).
      rewrite Z.geb_leb in T. apply Z.leb_gt in T. lia.
  - inversion H; subst. lia.
Qed.
End LazyCallerFacts.

Lemma limit_reached_witness :
  exists fuel, forall fuel', (fuel <= fuel')%nat ->
    groups_for_version API two_pages fuel' "app" 7 (Some 3) [] =
    Some (Ok (first_groups ++ last_groups),
          [mk_request (groups_url API "app" 7 1) 3; mk_request (groups_url API "app" 7 2) 3]).
Proof.
  apply (limit_reached API two_pages "app" 7 [] 3 (first_groups ++ last_groups)
           (mk_generator (code (generate_groups_for_version API "app" 7 1)) (InLoop [] 2 2)));
    [lia | | reflexivity].
  apply (pull_pulls two_pages 5 3). vm_compute; reflexivity.
Defined.

Lemma limit_not_reached_witness :
  exists fuel, forall fuel', (fuel <= fuel')%nat ->
    groups_for_version API two_pages fuel' "app" 7 (Some 10) [] =
    Some (Ok (first_groups ++ last_groups),
          [mk_request (groups_url API "app" 7 1) 3; mk_request (groups_url API "app" 7 2) 3]).
Proof.
  apply (limit_not_reached API two_pages "app" 7 [] 10); [|simpl; lia].
  apply py_list_iff_exhausts. exists 10%nat. vm_compute; reflexivity.
Defined.

(** X5.  With a [max_count] of 1 or less, 0 and the negative numbers
    included, [groups_for_version] returns the first group of the sequence
    alone, with the requests that were needed to yield it. *)
Theorem limit_at_most_one (API_BASE : string) (get : string -> Z -> exc Response)
    (app_id : string) (app_version_id : Z) (trace : list request) (k : Z)
    (group : HockeyCrashGroup.t) g' trace' :
  k <= 1 ->
  gives get (generate_groups_for_version API_BASE app_id app_version_id 1) trace
        (Yielded group) g' trace' ->
  exists fuel, forall fuel', (fuel <= fuel')%nat ->
    groups_for_version API_BASE get fuel' app_id app_version_id (Some k) trace =
    Some (Ok [group], trace').
Proof.
  intros Hk G. destruct (gives_next get _ _ _ _ _ G) as [fuel Hf].
  exists (S fuel). intros [|fuel'] Hle; [lia|].
  unfold groups_for_version. simpl. rewrite Hf by lia. simpl.
  replace (Z.of_nat 1 >=? k) with true; [reflexivity|].
  symmetry. rewrite Z.geb_leb. apply Z.leb_le. lia.
Qed.

Lemma limit_at_most_one_witness :
  exists fuel, forall fuel', (fuel <= fuel')%nat ->
    groups_for_version API two_pages fuel' "app" 7 (Some (-5)) [] =
    Some (Ok [a_group 1 (Some "SIGSEGV") None None None None],
          [mk_request (groups_url API "app" 7 1) 3]).
Proof.
  apply (limit_at_most_one API two_pages "app" 7 [] (-5) _
           (mk_generator (code (generate_groups_for_version API "app" 7 1))
                         (InLoop [a_group 2 (Some "SIGABRT") (Some "abort") None None None]
                                 2 1)));
    [lia|].
  apply (next_gives two_pages 3). vm_compute; reflexivity.
Defined.

(** X6.  Whatever [max_count] is, a list that [groups_for_version] returns
    is made of the items its generator yields, in order, with the requests
    the generator issued for them: either the whole sequence, or, when the
    limit stopped the loop, the non-empty list of the items pulled so far,
    at least [max_count] of them. *)
Theorem groups_for_version_sound (API_BASE : string) (get : string -> Z -> exc Response)
    (app_id : string) (app_version_id : Z) (max_count : option Z) (trace : list request)
    (fuel : nat) (groups : list HockeyCrashGroup.t) (trace' : list request) :
  groups_for_version API_BASE get fuel app_id app_version_id max_count trace =
    Some (Ok groups, trace') ->
  exhausts get (generate_groups_for_version API_BASE app_id app_version_id 1)
           trace groups trace' \/
  exists k g',
    max_count = Some k /\ groups <> [] /\ Z.of_nat (length groups) >= k /\
    pulls get (generate_groups_for_version API_BASE app_id app_version_id 1)
          trace groups g' trace'.
Proof.
  intros H. unfold groups_for_version in H.
  destruct (collect_sound get _ _ _ _ _ _ _ H) as (items & -> & R). exact R.
Qed.

Lemma groups_for_version_sound_witness :
  exhausts two_pages (generate_groups_for_version API "app" 7 1) [] first_groups
           [mk_request (groups_url API "app" 7 1) 3] \/
  exists k g',
    Some 2 = Some k /\ first_groups <> [] /\ Z.of_nat (length first_groups) >= k /\
    pulls two_pages (generate_groups_for_version API "app" 7 1) [] first_groups g'
          [mk_request (groups_url API "app" 7 1) 3].
Proof.
  apply (groups_for_version_sound API two_pages "app" 7 (Some 2) [] 5).
  vm_compute; reflexivity.
Defined.

(** X7.  With a [max_count], [groups_for_version] never returns more than
    [max 1 max_count] groups. *)
Theorem groups_for_version_bounded (API_BASE : string) (get : string -> Z -> exc Response)
    (app_id : string) (app_version_id : Z) (k : Z) (trace : list request)
    (fuel : nat) (groups : list HockeyCrashGroup.t) (trace' : list request) :
  groups_for_version API_BASE get fuel app_id app_version_id (Some k) trace =
    Some (Ok groups, trace') ->
  Z.of_nat (length groups) <= Z.max 1 k.
Proof.
  intros H. unfold groups_for_version in H.
  apply (collect_bounded get _ _ _ _ _ _ _ H). simpl. lia.
Qed.

Lemma groups_for_version_bounded_witness :
  Z.of_nat (length first_groups) <= Z.max 1 2.
Proof.
  apply (groups_for_version_bounded API two_pages "app" 7 2 [] 5 first_groups
           [mk_request (groups_url API "app" 7 1) 3]).
  vm_compute; reflexivity.
Defined.

(* ===================================================================== *)
(** * The generators: further properties *)
(* ===================================================================== *)

Section LazinessFacts.
Variable get : string -> Z -> exc Response.
Context {Item : Type}.
Implicit Types (p : paging Item) (trace : list request).

Lemma in_loop_pulls p total_pages page : forall (items rest : list Item) trace,
  pulls get (mk_generator p (InLoop (items ++ rest) total_pages page)) trace items
        (mk_generator p (InLoop rest total_pages page)) trace.
Proof.
  induction items as [|item items IH]; intros rest trace; [constructor|].
  eapply pulls_cons; [apply gives_now; reflexivity | apply IH].
Qed.

(** Up to the last item of a page, the generator has asked for this page
    alone. *)
Lemma within_page p page items total_pages trace (k : nat) :
  fetch get p page = Ok (items, total_pages) ->
  (1 <= k <= length items)%nat ->
  pulls get (mk_generator p (AtEntry page)) trace (firstn k items)
        (mk_generator p (InLoop (skipn k items) total_pages page))
        (trace ++ [mk_request (url_for p page) 3]).
Proof.
  intros F [Hk Hlen].
  destruct k as [|k]; [lia|]. destruct items as [|item items]; [simpl in Hlen; lia|].
  simpl firstn. simpl skipn.
  eapply pulls_cons.
  - eapply gives_later; [apply resume_entry_ok, F|]. apply gives_now. reflexivity.
  - pose proof (in_loop_pulls p total_pages page (firstn k items) (skipn k items)
                  (trace ++ [mk_request (url_for p page) 3])) as P.
    now rewrite firstn_skipn in P.
Qed.

Lemma requests_for_NoDup p page n :
  (forall a b, url_for p a = url_for p b -> a = b) ->
  NoDup (requests_for p page n).
Proof.
  intros Hinj. unfold requests_for.
  change (NoDup ((fun k => mk_request (url_for p k) 3) <$> seqZ page (Z.of_nat n))).
  apply NoDup_fmap_2; [|apply NoDup_seqZ].
  intros a b E. inversion E. auto.
Qed.
End LazinessFacts.

(** X8.  Started at any page, a generator yields the items of the pages it
    visits, page after page, and asks for these pages in order and for no
    page before its first: it goes on from a page while this page's own
    [total_pages] exceeds its number, whatever other pages reported, and a
    page that cannot be fetched or decoded ends the sequence with its
    exception. *)
Theorem sequence_from_page (API_BASE : string) (get : string -> Z -> exc Response)
    (app_id : string) (app_version_id crash_group_id : Z) (page : Z)
    (trace : list request) :
  (forall (pages : list (list HockeyCrashGroup.t)) (ending : option exn),
     visits get (code (generate_groups_for_version API_BASE app_id app_version_id page))
            page pages ending ->
     match ending with
     | None =>
         exhausts get (generate_groups_for_version API_BASE app_id app_version_id page)
           trace (concat pages)
           (trace ++ map (fun k => mk_request (groups_url API_BASE app_id app_version_id k) 3)
                         (seqZ page (Z.of_nat (length pages))))
     | Some e =>
         aborts get (generate_groups_for_version API_BASE app_id app_version_id page)
           trace (concat pages) e
           (trace ++ map (fun k => mk_request (groups_url API_BASE app_id app_version_id k) 3)
                         (seqZ page (Z.of_nat (S (length pages)))))
     end) /\
  (forall (pages : list (list HockeyCrashInstance.t)) (ending : option exn),
     visits get (code (generate_in_group API_BASE app_id app_version_id crash_group_id page))
            page pages ending ->
     match ending with
     | None =>
         exhausts get (generate_in_group API_BASE app_id app_version_id crash_group_id page)
           trace (concat pages)
           (trace ++ map (fun k => mk_request
                                     (in_group_url API_BASE app_id app_version_id
                                                   crash_group_id k) 3)
                         (seqZ page (Z.of_nat (length pages))))
     | Some e =>
         aborts get (generate_in_group API_BASE app_id app_version_id crash_group_id page)
           trace (concat pages) e
           (trace ++ map (fun k => mk_request
                                     (in_group_url API_BASE app_id app_version_id
                                                   crash_group_id k) 3)
                         (seqZ page (Z.of_nat (S (length pages)))))
     end).
Proof.
  split; intros pages ending V;
    exact (visits_sequence get _ page pages ending V trace).
Qed.

Lemma sequence_from_page_witness :
  exhausts two_pages (generate_groups_for_version API "app" 7 2) [] (concat [last_groups])
           ([] ++ map (fun k => mk_request (groups_url API "app" 7 k) 3)
                      (seqZ 2 (Z.of_nat (length [last_groups])))) /\
  aborts second_page_fails (generate_in_group API "app" 7 5 1) []
         (concat [first_crashes]) (RequestFailed 404)
         ([] ++ map (fun k => mk_request (in_group_url API "app" 7 5 k) 3)
                    (seqZ 1 (Z.of_nat (S (length [first_crashes]))))).
Proof.
  split.
  - apply (proj1 (sequence_from_page API two_pages "app" 7 5 2 []) [last_groups] None).
    apply (visits_last two_pages _ 2 last_groups 2); [vm_compute; reflexivity | lia].
  - apply (proj2 (sequence_from_page API second_page_fails "app" 7 5 1 [])
             [first_crashes] (Some (RequestFailed 404))).
    apply (visits_more second_page_fails _ 1 first_crashes 2 [] (Some (RequestFailed 404)));
      [vm_compute; reflexivity | lia |].
    apply visits_failed. vm_compute; reflexivity.
Defined.

(** X9.  A generator does not look ahead: the caller who pulls [k] items,
    with [k] between one and the number of items of the first page, has
    caused the request of this page alone, also when more pages follow and
    also when [k] is the whole page; the generator is left inside this
    page. *)
Theorem page_before_next_request (API_BASE : string) (get : string -> Z -> exc Response)
    (app_id : string) (app_version_id crash_group_id : Z) (page : Z)
    (trace : list request) (k : nat) (total_pages : Z) :
  (forall items : list HockeyCrashGroup.t,
     fetch get (code (generate_groups_for_version API_BASE app_id app_version_id page)) page
       = Ok (items, total_pages) ->
     (1 <= k <= length items)%nat ->
     pulls get (generate_groups_for_version API_BASE app_id app_version_id page) trace
           (firstn k items)
           (mk_generator (code (generate_groups_for_version API_BASE app_id app_version_id page))
                         (InLoop (skipn k items) total_pages page))
           (trace ++ [mk_request (groups_url API_BASE app_id app_version_id page) 3])) /\
  (forall items : list HockeyCrashInstance.t,
     fetch get (code (generate_in_group API_BASE app_id app_version_id crash_group_id page))
           page = Ok (items, total_pages) ->
     (1 <= k <= length items)%nat ->
     pulls get (generate_in_group API_BASE app_id app_version_id crash_group_id page) trace
           (firstn k items)
           (mk_generator
              (code (generate_in_group API_BASE app_id app_version_id crash_group_id page))
              (InLoop (skipn k items) total_pages page))
           (trace ++
            [mk_request (in_group_url API_BASE app_id app_version_id crash_group_id page) 3])).
Proof.
  split; intros items F Hk; exact (within_page get _ page items total_pages trace k F Hk).
Qed.

Lemma page_before_next_request_witness :
  pulls two_pages (generate_groups_for_version API "app" 7 1) []
        (firstn 2 first_groups)
        (mk_generator (code (generate_groups_for_version API "app" 7 1))
                      (InLoop (skipn 2 first_groups) 2 1))
        ([] ++ [mk_request (groups_url API "app" 7 1) 3]) /\
  pulls two_pages (generate_in_group API "app" 7 5 1) []
        (firstn 1 first_crashes)
        (mk_generator (code (generate_in_group API "app" 7 5 1))
                      (InLoop (skipn 1 first_crashes) 2 1))
        ([] ++ [mk_request (in_group_url API "app" 7 5 1) 3]).
Proof.
  split.
  - apply (proj1 (page_before_next_request API two_pages "app" 7 5 1 [] 2 2) first_groups);
      [vm_compute; reflexivity | simpl; lia].
  - apply (proj2 (page_before_next_request API two_pages "app" 7 5 1 [] 1 2) first_crashes);
      [vm_compute; reflexivity | simpl; lia].
Defined.

(* ===================================================================== *)
(** * The access URL of a crash group *)
(* ===================================================================== *)

Lemma has_char_pretty_N_go (c : ascii) (x : N) : forall s : string,
  (forall d, pretty_N_char d <> c) ->
  has_char c (pretty_N_go x s) = has_char c s.
Proof.
  induction (N.lt_wf_0 x) as [x _ IH]; intros s Hc.
  assert (x = 0 \/ 0 < x)%N as [->|Hpos] by lia.
  - now rewrite pretty_N_go_0.
  - rewrite pretty_N_go_step by assumption.
    rewrite IH; [|now apply N.div_lt | assumption].
    simpl. destruct (Ascii.eqb_spec (pretty_N_char (x `mod` 10)) c) as [E|_]; [|reflexivity].
    now destruct (Hc _ E).
Qed.

Lemma no_slash_digit (d : N) : pretty_N_char d <> "/"%char.
Proof. unfold pretty_N_char. repeat case_match; discriminate. Qed.

Lemma no_slash_str_int (n : Z) : has_char "/"%char (str_int n) = false.
Proof.
  unfold str_int, pretty, pretty_Z.
  destruct n as [|x|x]; [reflexivity| |].
  - unfold pretty, pretty_positive, pretty, pretty_N. case_decide; [reflexivity|].
    now rewrite has_char_pretty_N_go by apply no_slash_digit.
  - change (has_char "/"%char (pretty x) = false).
    unfold pretty, pretty_positive, pretty, pretty_N. case_decide; [reflexivity|].
    now rewrite has_char_pretty_N_go by apply no_slash_digit.
Qed.

Lemma append_mid_inj (s1 s2 tail x y : string) :
  has_char "/"%char s1 = false -> has_char "/"%char s2 = false ->
  s1 +:+ String "/" tail +:+ x = s2 +:+ String "/" tail +:+ y ->
  s1 = s2 /\ x = y.
Proof.
  intros H1 H2 E. rewrite !append_cons in E.
  apply append_sep_inj in E as [-> E]; [|assumption..].
  apply append_inv_head in E. auto.
Qed.

(** X11.  The access URL identifies the crash group within the service:
    two groups have the same [url()] exactly when they have the same
    [app_id], [app_version_id] and [identifier]. *)
Theorem url_identifies_group (g1 g2 : HockeyCrashGroup.t) :
  HockeyCrashGroup.url g1 = HockeyCrashGroup.url g2 <->
  HockeyCrashGroup.app_id g1 = HockeyCrashGroup.app_id g2 /\
  HockeyCrashGroup.app_version_id g1 = HockeyCrashGroup.app_version_id g2 /\
  HockeyCrashGroup.identifier g1 = HockeyCrashGroup.identifier g2.
Proof.
  unfold HockeyCrashGroup.url. split.
  - intros E. rewrite !append_assoc in E. apply append_inv_head in E.
    apply append_mid_inj in E as [Ea E]; [|apply no_slash_str_int..].
    apply append_mid_inj in E as [Ev Ei]; [|apply no_slash_str_int..].
    apply pretty_Z_inj in Ea, Ev, Ei. auto.
  - intros (-> & -> & ->). reflexivity.
Qed.

(* ===================================================================== *)
(** * The requests of the eager forms *)
(* ===================================================================== *)

Section EagerRequests.
Variable get : string -> Z -> exc Response.
Context {Item : Type}.
Implicit Types (g : generator Item) (trace : list request).

Lemma gives_runs g trace s g' trace' :
  gives get g trace s g' trace' -> runs get g trace [s] g' trace'.
Proof.
  induction 1 as [g trace s g' trace' R | g trace g1 trace1 s g' trace' R _ IH].
  - change [s] with (given (Some s) ++ []). eapply runs_on; [exact R | constructor].
  - change [s] with (given None ++ [s]). eapply runs_on; [exact R | exact IH].
Qed.

Lemma runs_trans g trace s1 g1 trace1 s2 g2 trace2 :
  runs get g trace s1 g1 trace1 -> runs get g1 trace1 s2 g2 trace2 ->
  runs get g trace (s1 ++ s2) g2 trace2.
Proof.
  induction 1 as [g trace | g trace o ga tracea signals g' trace' R _ IH]; intros H2; [exact H2|].
  rewrite <- app_assoc. eapply runs_on; [exact R | apply IH, H2].
Qed.

Lemma py_list_runs fuel : forall g acc trace r trace',
  py_list get fuel g acc trace = Some (r, trace') ->
  exists signals g', runs get g trace signals g' trace'.
Proof.
  induction fuel as [|fuel IH]; intros g acc trace r trace' H; [discriminate|].
  simpl in H.
  destruct (next get fuel g trace) as [[[s g1] trace1]|] eqn:E; [|discriminate].
  apply next_gives, gives_runs in E.
  destruct s as [item| |e].
  - destruct (IH _ _ _ _ _ H) as (signals & g' & R).
    eauto using runs_trans.
  - inversion H; subst. eauto.
  - inversion H; subst. eauto.
Qed.

Lemma collect_runs fuel : forall max_count g acc trace r trace',
  collect get fuel max_count g acc trace = Some (r, trace') ->
  exists signals g', runs get g trace signals g' trace'.
Proof.
  induction fuel as [|fuel IH]; intros max_count g acc trace r trace' H; [discriminate|].
  simpl in H.
  destruct (next get fuel g trace) as [[[s g1] trace1]|] eqn:E; [|discriminate].
  apply next_gives, gives_runs in E.
  destruct s as [item| |e].
  - destruct (match max_count with Some k => _ | None => false end).
    + inversion H; subst. eauto.
    + destruct (IH _ _ _ _ _ _ H) as (signals & g' & R). eauto using runs_trans.
  - inversion H; subst. eauto.
  - inversion H; subst. eauto.
Qed.
End EagerRequests.

(** X12.  Whatever they return or raise, the eager forms start at page 1
    and ask for consecutive pages: when [groups_for_version], with any
    [max_count], or [in_group] ends, the trace is the trace it was given,
    followed by the requests of pages 1 to [n] for some [n], each with a
    retry count of 3. *)
Theorem eager_requests (API_BASE : string) (get : string -> Z -> exc Response)
    (app_id : string) (app_version_id crash_group_id : Z) (trace : list request)
    (fuel : nat) :
  (forall max_count r trace',
     groups_for_version API_BASE get fuel app_id app_version_id max_count trace =
       Some (r, trace') ->
     exists n : nat,
       trace' = trace ++
         map (fun k => mk_request (groups_url API_BASE app_id app_version_id k) 3)
             (seqZ 1 (Z.of_nat n))) /\
  (forall r trace',
     in_group API_BASE get fuel app_id app_version_id crash_group_id trace =
       Some (r, trace') ->
     exists n : nat,
       trace' = trace ++
         map (fun k => mk_request
                         (in_group_url API_BASE app_id app_version_id crash_group_id k) 3)
             (seqZ 1 (Z.of_nat n))).
Proof.
  split.
  - intros max_count r trace' H. unfold groups_for_version in H.
    destruct (collect_runs get _ _ _ _ _ _ _ H) as (signals & g' & R).
    destruct (runs_requests get _ 1 trace _ _ _ _ _ R 0%nat eq_refl) as (n & -> & _);
      [unfold requests_for; simpl; now rewrite app_nil_r | simpl; lia |].
    exists n. reflexivity.
  - intros r trace' H. unfold in_group in H.
    destruct (py_list_runs get _ _ _ _ _ _ H) as (signals & g' & R).
    destruct (runs_requests get _ 1 trace _ _ _ _ _ R 0%nat eq_refl) as (n & -> & _);
      [unfold requests_for; simpl; now rewrite app_nil_r | simpl; lia |].
    exists n. reflexivity.
Qed.

Lemma eager_requests_witness :
  (exists n : nat,
     [mk_request (groups_url API "app" 7 1) 3] =
     [] ++ map (fun k => mk_request (groups_url API "app" 7 k) 3) (seqZ 1 (Z.of_nat n))) /\
  (exists n : nat,
     [mk_request (in_group_url API "app" 7 5 1) 3; mk_request (in_group_url API "app" 7 5 2) 3] =
     [] ++ map (fun k => mk_request (in_group_url API "app" 7 5 k) 3) (seqZ 1 (Z.of_nat n))).
Proof.
  split.
  - apply (proj1 (eager_requests API two_pages "app" 7 5 [] 5) (Some 2) (Ok first_groups)).
    vm_compute; reflexivity.
  - apply (proj2 (eager_requests API second_page_fails "app" 7 5 [] 5)
             (Raise (RequestFailed 404))).
    vm_compute; reflexivity.
Defined.

(** X13.  The eager forms raise exactly what ends the sequence of their
    generator: [groups_for_version] without [max_count], and [in_group],
    raise an exception exactly when the generator yields some items and then
    raises this exception; the items yielded before it are not returned. *)
Theorem eager_raises_what_lazy_raises (API_BASE : string)
    (get : string -> Z -> exc Response) (app_id : string)
    (app_version_id crash_group_id : Z) (trace : list request) (e : exn)
    (trace' : list request) :
  ((exists fuel, groups_for_version API_BASE get fuel app_id app_version_id None trace
                 = Some (Raise e, trace')) <->
   (exists yielded,
      aborts get (generate_groups_for_version API_BASE app_id app_version_id 1)
             trace yielded e trace')) /\
  ((exists fuel, in_group API_BASE get fuel app_id app_version_id crash_group_id trace
                 = Some (Raise e, trace')) <->
   (exists yielded,
      aborts get (generate_in_group API_BASE app_id app_version_id crash_group_id 1)
             trace yielded e trace')).
Proof.
  split; split.
  - intros [fuel H]. unfold groups_for_version in H. rewrite collect_None in H.
    eapply py_list_aborts, H.
  - intros [yielded A]. destruct (aborts_py_list get _ _ _ _ _ [] A) as [fuel H].
    exists fuel. unfold groups_for_version. rewrite collect_None. apply H. lia.
  - intros [fuel H]. eapply py_list_aborts, H.
  - intros [yielded A]. destruct (aborts_py_list get _ _ _ _ _ [] A) as [fuel H].
    exists fuel. apply H. lia.
Qed.

(* ===================================================================== *)
(** * Pagination within the frames of the interpreter *)
(* ===================================================================== *)

Section FrameFacts.
Variable get : string -> Z -> exc Response.
Variable frame_limit : nat.
Context {Item : Type}.
(** A property of the states of a run that leaves room for every frame the
    run needs. *)
Variable fits : nat -> generator Item -> Prop.
Hypothesis fits_room : forall depth g,
  fits depth g -> delegates g = true -> (depth < frame_limit)%nat.
Hypothesis fits_step : forall depth g trace o g' trace',
  fits depth g -> resume get g trace = (o, g', trace') ->
  fits (if delegates g then S depth else depth) g'.




End FrameFacts.

Section ConsistentPages.
Variable get : string -> Z -> exc Response.
Context {Item : Type}.
Variable p : paging Item.
Variable total_pages : Z.
Variable pages : list (list Item).
Hypothesis pages_length : Z.of_nat (length pages) = Z.max 1 total_pages.
Hypothesis pages_fetch : forall i items,
  pages !! i = Some items -> fetch get p (1 + Z.of_nat i) = Ok (items, total_pages).



End ConsistentPages.



(** The same two pages with room for one frame: the first page is fetched,
    its items are lost to the eager form, and the second page is never
    requested. *)
Example one_frame_too_few :
  in_group_framed API two_pages 1 9 "app" 7 5 [] =
    Some (Raise RecursionError, [mk_request (in_group_url API "app" 7 5 1) 3]) /\
  groups_for_version_framed API two_pages 1 9 "app" 7 None [] =
    Some (Raise RecursionError, [mk_request (groups_url API "app" 7 1) 3]).
Proof. split; vm_compute; reflexivity. Qed.

(* ===================================================================== *)
(** * What is handed to [get] *)
(* ===================================================================== *)

Section TransportFacts.
Variables get1 get2 : string -> Z -> exc Response.
Context {Item : Type}.
Implicit Types (g : generator Item) (trace : list request).

Lemma resume_code g trace o g' trace' :
  resume get1 g trace = (o, g', trace') -> code g' = code g.
Proof.
  unfold resume.
  destruct (at_ g) as [page|[|item remaining] total_pages page|].
  - destruct (fetch get1 (code g) page) as [[items total_pages]|e];
      intros R; inversion R; reflexivity.
  - destruct (total_pages >? page); intros R; inversion R; reflexivity.
  - intros R; inversion R; reflexivity.
  - intros R; inversion R; reflexivity.
Qed.

(** Two transports that answer alike at the URLs of the pages, asked with
    three retries, cannot be told apart through a generator. *)
Lemma resume_ext g trace :
  (forall page, get1 (url_for (code g) page) 3 = get2 (url_for (code g) page) 3) ->
  resume get1 g trace = resume get2 g trace.
Proof.
  intros H. unfold resume, fetch.
  destruct (at_ g) as [page|[|item remaining] total_pages page|]; try reflexivity.
  now rewrite H.
Qed.

Lemma next_ext fuel : forall g trace,
  (forall page, get1 (url_for (code g) page) 3 = get2 (url_for (code g) page) 3) ->
  next get1 fuel g trace = next get2 fuel g trace.
Proof.
  induction fuel as [|fuel IH]; intros g trace H; [reflexivity|].
  simpl. rewrite <- (resume_ext g trace H).
  destruct (resume get1 g trace) as [[[s|] g1] trace1] eqn:R; [reflexivity|].
  apply IH. now rewrite (resume_code _ _ _ _ _ R).
Qed.

Lemma next_code fuel : forall g trace s g' trace',
  next get1 fuel g trace = Some (s, g', trace') -> code g' = code g.
Proof.
  induction fuel as [|fuel IH]; intros g trace s g' trace' H; [discriminate|].
  simpl in H.
  destruct (resume get1 g trace) as [[[s0|] g1] trace1] eqn:R.
  - inversion H; subst. eapply resume_code; eauto.
  - rewrite (IH _ _ _ _ _ H). eapply resume_code; eauto.
Qed.

Lemma py_list_ext fuel : forall g acc trace,
  (forall page, get1 (url_for (code g) page) 3 = get2 (url_for (code g) page) 3) ->
  py_list get1 fuel g acc trace = py_list get2 fuel g acc trace.
Proof.
  induction fuel as [|fuel IH]; intros g acc trace H; [reflexivity|].
  simpl. rewrite <- (next_ext fuel g trace H).
  destruct (next get1 fuel g trace) as [[[[item| |e] g1] trace1]|] eqn:E; try reflexivity.
  apply IH. now rewrite (next_code _ _ _ _ _ _ E).
Qed.

Lemma collect_ext fuel : forall max_count g acc trace,
  (forall page, get1 (url_for (code g) page) 3 = get2 (url_for (code g) page) 3) ->
  collect get1 fuel max_count g acc trace = collect get2 fuel max_count g acc trace.
Proof.
  induction fuel as [|fuel IH]; intros max_count g acc trace H; [reflexivity|].
  simpl. rewrite <- (next_ext fuel g trace H).
  destruct (next get1 fuel g trace) as [[[[item| |e] g1] trace1]|] eqn:E; try reflexivity.
  destruct (match max_count with Some k => _ | None => false end); [reflexivity|].
  apply IH. now rewrite (next_code _ _ _ _ _ _ E).
Qed.
End TransportFacts.

(** C6.  A page of either collection is fetched by one call of [get], on
    the documented URL of this page (page size 100, descending order) and
    with a retry count of 3, and what the call gives is what is decoded;
    the requests a generator has recorded, however far it has run, are the
    requests of these calls for consecutive pages from its first page on;
    and this is all the generators and the eager forms ask of [get]: they
    behave alike on two transports that answer alike to these calls. *)
Theorem request_urls (API_BASE : string) (get : string -> Z -> exc Response)
    (app_id : string) (app_version_id crash_group_id : Z) :
  ((forall start page,
      fetch get (code (generate_groups_for_version API_BASE app_id app_version_id start)) page =
      (response ← get (groups_url_shape API_BASE app_id app_version_id page) 3;
       body ← json response;
       groups_envelope body)) /\
   (forall page trace signals g' trace',
      runs get (generate_groups_for_version API_BASE app_id app_version_id page)
           trace signals g' trace' ->
      exists n : nat,
        trace' = trace ++
          map (fun k => mk_request (groups_url_shape API_BASE app_id app_version_id k) 3)
              (seqZ page (Z.of_nat n))) /\
   (forall get' : string -> Z -> exc Response,
      (forall page, get' (groups_url_shape API_BASE app_id app_version_id page) 3 =
                    get (groups_url_shape API_BASE app_id app_version_id page) 3) ->
      (forall fuel start c trace,
         next get' fuel
              (mk_generator
                 (code (generate_groups_for_version API_BASE app_id app_version_id start)) c)
              trace =
         next get fuel
              (mk_generator
                 (code (generate_groups_for_version API_BASE app_id app_version_id start)) c)
              trace) /\
      (forall fuel max_count trace,
         groups_for_version API_BASE get' fuel app_id app_version_id max_count trace =
         groups_for_version API_BASE get fuel app_id app_version_id max_count trace))) /\
  ((forall start page,
      fetch get (code (generate_in_group API_BASE app_id app_version_id crash_group_id start))
            page =
      (response ← get (in_group_url_shape API_BASE app_id app_version_id crash_group_id page) 3;
       body ← json response;
       in_group_envelope body)) /\
   (forall page trace signals g' trace',
      runs get (generate_in_group API_BASE app_id app_version_id crash_group_id page)
           trace signals g' trace' ->
      exists n : nat,
        trace' = trace ++
          map (fun k => mk_request
                          (in_group_url_shape API_BASE app_id app_version_id crash_group_id k) 3)
              (seqZ page (Z.of_nat n))) /\
   (forall get' : string -> Z -> exc Response,
      (forall page,
         get' (in_group_url_shape API_BASE app_id app_version_id crash_group_id page) 3 =
         get (in_group_url_shape API_BASE app_id app_version_id crash_group_id page) 3) ->
      (forall fuel start c trace,
         next get' fuel
              (mk_generator
                 (code (generate_in_group API_BASE app_id app_version_id crash_group_id start))
                 c)
              trace =
         next get fuel
              (mk_generator
                 (code (generate_in_group API_BASE app_id app_version_id crash_group_id start))
                 c)
              trace) /\
      (forall fuel trace,
         in_group API_BASE get' fuel app_id app_version_id crash_group_id trace =
         in_group API_BASE get fuel app_id app_version_id crash_group_id trace))).
Proof.
  split; (split; [|split]).
  - intros start page. unfold fetch. simpl. now rewrite groups_url_is_shape.
  - intros page trace signals g' trace' R.
    destruct (runs_requests get _ page trace _ _ _ _ _ R 0%nat eq_refl) as (n & -> & _).
    + unfold requests_for. simpl. now rewrite app_nil_r.
    + simpl. lia.
    + exists n. f_equal. unfold requests_for. apply map_ext.
      intros k. simpl. now rewrite groups_url_is_shape.
  - intros get' H. split.
    + intros fuel start c trace. apply next_ext.
      intros page. simpl. rewrite groups_url_is_shape. apply H.
    + intros fuel max_count trace. unfold groups_for_version. apply collect_ext.
      intros page. simpl. rewrite groups_url_is_shape. apply H.
  - intros start page. unfold fetch. simpl. now rewrite in_group_url_is_shape.
  - intros page trace signals g' trace' R.
    destruct (runs_requests get _ page trace _ _ _ _ _ R 0%nat eq_refl) as (n & -> & _).
    + unfold requests_for. simpl. now rewrite app_nil_r.
    + simpl. lia.
    + exists n. f_equal. unfold requests_for. apply map_ext.
      intros k. simpl. now rewrite in_group_url_is_shape.
  - intros get' H. split.
    + intros fuel start c trace. apply next_ext.
      intros page. simpl. rewrite in_group_url_is_shape. apply H.
    + intros fuel trace. unfold in_group. apply py_list_ext.
      intros page. simpl. rewrite in_group_url_is_shape. apply H.
Qed.

(** A service that knows the documented URLs alone, asked with three
    retries alone, is read like [two_pages]; the run below has requested
    both pages. *)
Lemma request_urls_witness :
  (exists n : nat,
     [mk_request (groups_url API "app" 7 1) 3; mk_request (groups_url API "app" 7 2) 3] =
     [] ++ map (fun k => mk_request (groups_url_shape API "app" 7 k) 3)
               (seqZ 1 (Z.of_nat n))) /\
  (forall fuel trace,
     in_group API
       (fun url retry_count => if retry_count =? 3 then two_pages url 3
                               else Raise (RequestFailed 500))
       fuel "app" 7 5 trace =
     in_group API two_pages fuel "app" 7 5 trace).
Proof.
  split.
  - destruct (py_list_runs two_pages 9 (generate_groups_for_version API "app" 7 1) [] []
                (Ok (first_groups ++ last_groups))
                [mk_request (groups_url API "app" 7 1) 3;
                 mk_request (groups_url API "app" 7 2) 3])
      as (signals & g' & R); [vm_compute; reflexivity|].
    exact (proj1 (proj2 (proj1 (request_urls API two_pages "app" 7 5))) 1 [] signals g' _ R).
  - refine (proj2 (proj2 (proj2 (proj2 (request_urls API two_pages "app" 7 5))) _ _)).
    intros page. reflexivity.
Defined.

(* ===================================================================== *)
(** * Equality with objects of any class *)
(* ===================================================================== *)




(* ===================================================================== *)
(** * No page is asked for twice *)
(* ===================================================================== *)

(** X10.  A generator never asks for the same page twice: different pages
    have different URLs, the page is fetched by [get] on its URL, and the
    requests of a run that starts with an empty trace are pairwise
    distinct. *)
Theorem requests_distinct (API_BASE : string) (get : string -> Z -> exc Response)
    (app_id : string) (app_version_id crash_group_id : Z) :
  ((forall a b,
      groups_url API_BASE app_id app_version_id a =
      groups_url API_BASE app_id app_version_id b -> a = b) /\
   (forall start page,
      fetch get (code (generate_groups_for_version API_BASE app_id app_version_id start)) page =
      (response ← get (groups_url API_BASE app_id app_version_id page) 3;
       body ← json response;
       groups_envelope body)) /\
   (forall page signals g' trace',
      runs get (generate_groups_for_version API_BASE app_id app_version_id page)
           [] signals g' trace' ->
      NoDup trace')) /\
  ((forall a b,
      in_group_url API_BASE app_id app_version_id crash_group_id a =
      in_group_url API_BASE app_id app_version_id crash_group_id b -> a = b) /\
   (forall start page,
      fetch get (code (generate_in_group API_BASE app_id app_version_id crash_group_id start))
            page =
      (response ← get (in_group_url API_BASE app_id app_version_id crash_group_id page) 3;
       body ← json response;
       in_group_envelope body)) /\
   (forall page signals g' trace',
      runs get (generate_in_group API_BASE app_id app_version_id crash_group_id page)
           [] signals g' trace' ->
      NoDup trace')).
Proof.
  assert (G : forall a b,
            groups_url API_BASE app_id app_version_id a =
            groups_url API_BASE app_id app_version_id b -> a = b).
  { intros a b E. unfold groups_url in E.
    do 2 apply append_inv_head in E. now apply pretty_Z_inj in E. }
  assert (J : forall a b,
            in_group_url API_BASE app_id app_version_id crash_group_id a =
            in_group_url API_BASE app_id app_version_id crash_group_id b -> a = b).
  { intros a b E. unfold in_group_url in E.
    do 3 apply append_inv_head in E. now apply pretty_Z_inj in E. }
  split; (split; [assumption|]); (split; [reflexivity|]);
    intros page signals g' trace' R;
    destruct (runs_requests get _ page [] _ _ _ _ _ R 0%nat eq_refl) as (n & -> & _);
    try reflexivity; try (simpl; lia);
    apply requests_for_NoDup; assumption.
Qed.

(** A run over both pages. *)
Lemma requests_distinct_witness :
  NoDup [mk_request (groups_url API "app" 7 1) 3; mk_request (groups_url API "app" 7 2) 3] /\
  NoDup [mk_request (in_group_url API "app" 7 5 1) 3;
         mk_request (in_group_url API "app" 7 5 2) 3].
Proof.
  split.
  - destruct (py_list_runs two_pages 9 (generate_groups_for_version API "app" 7 1) [] []
                (Ok (first_groups ++ last_groups))
                [mk_request (groups_url API "app" 7 1) 3;
                 mk_request (groups_url API "app" 7 2) 3])
      as (signals & g' & R); [vm_compute; reflexivity|].
    exact (proj2 (proj2 (proj1 (requests_distinct API two_pages "app" 7 5))) 1 signals g' _ R).
  - destruct (py_list_runs two_pages 9 (generate_in_group API "app" 7 5 1) [] []
                (Ok (first_crashes ++ last_crashes))
                [mk_request (in_group_url API "app" 7 5 1) 3;
                 mk_request (in_group_url API "app" 7 5 2) 3])
      as (signals & g' & R); [vm_compute; reflexivity|].
    exact (proj2 (proj2 (proj2 (requests_distinct API two_pages "app" 7 5))) 1 signals g' _ R).
Defined.
